(** * Clean Architecture validators: a shallow embedding

    This development embeds the two validator scripts of the
    clean-architecture skill,

      - [validate_imports.py]   ([ImportValidator], [LayerStructureValidator], [main])
      - [validate_structure.py] ([NamingConventionValidator], [EncapsulationValidator],
                                 [LayerContentValidator], [UseCaseStructureValidator])

    and states the properties of the specification over them.

    Conventions of the embedding.
      - Python [str] values are [string]s; source text, identifiers and paths
        are taken to be ASCII, on which [str.lower]/[str.upper] act on the
        letters only.
      - A [pathlib.Path] is the list of its [parts].
      - A module is the list of its top-level statements, [ast.walk] is the
        breadth-first traversal of CPython.
      - [self.violations] / [self.issues] are threaded explicitly; an
        exception is an [exn] travelling next to the state, because a
        Python list keeps what was appended before the exception.
      - A Python [set] of strings is the duplicate-free list of its
        insertions together with an iteration order [set_iter] that is only
        known to enumerate the elements ([HashOrder]): CPython iterates a
        set by hash slot, and string hashes are salted per process. *)

From Stdlib Require Import String Ascii List ZArith Bool Lia Permutation DecimalString.
Import ListNotations.
Open Scope string_scope.
Open Scope Z_scope.
Open Scope list_scope.

(* ================================================================== *)
(** ** Python strings *)

Module Str.

Definition is_upper_letter (c : ascii) : bool :=
  ((65 <=? nat_of_ascii c) && (nat_of_ascii c <=? 90))%nat.

Definition is_lower_letter (c : ascii) : bool :=
  ((97 <=? nat_of_ascii c) && (nat_of_ascii c <=? 122))%nat.

Definition is_digit (c : ascii) : bool :=
  ((48 <=? nat_of_ascii c) && (nat_of_ascii c <=? 57))%nat.

Definition lower_char (c : ascii) : ascii :=
  if is_upper_letter c then ascii_of_nat (nat_of_ascii c + 32) else c.

Definition upper_char (c : ascii) : ascii :=
  if is_lower_letter c then ascii_of_nat (nat_of_ascii c - 32) else c.

Fixpoint map_chars (f : ascii -> ascii) (s : string) : string :=
  match s with
  | EmptyString => EmptyString
  | String c s' => String (f c) (map_chars f s')
  end.

(** [s.lower()] and [s.upper()] on ASCII text. Python maps characters
    outside ASCII as well (the Kelvin sign lower-cases to [k], the long s
    upper-cases to [S]); what is proved of case changes is stated for
    ASCII text or does not depend on the mapping. *)
Definition lower : string -> string := map_chars lower_char.
Definition upper : string -> string := map_chars upper_char.

Fixpoint forallb_chars (p : ascii -> bool) (s : string) : bool :=
  match s with
  | EmptyString => true
  | String c s' => p c && forallb_chars p s'
  end.

Fixpoint existsb_chars (p : ascii -> bool) (s : string) : bool :=
  match s with
  | EmptyString => false
  | String c s' => p c || existsb_chars p s'
  end.

(** [s.isupper()]: no lower-case letter and at least one upper-case one *)
Definition isupper (s : string) : bool :=
  forallb_chars (fun c => negb (is_lower_letter c)) s
  && existsb_chars is_upper_letter s.

(** [s.startswith(p)] *)
Definition startswith (s p : string) : bool := String.prefix p s.

(** [needle in s] *)
Fixpoint contains (needle s : string) : bool :=
  String.prefix needle s
  || match s with
     | EmptyString => false
     | String _ s' => contains needle s'
     end.

(** [s.endswith(p)] *)
Fixpoint endswith (s p : string) : bool :=
  String.eqb s p
  || match s with
     | EmptyString => false
     | String _ s' => endswith s' p
     end.

(** [s.split(sep)] for a one-character separator; never the empty list *)
Fixpoint split (sep : ascii) (s : string) : list string :=
  match s with
  | EmptyString => [EmptyString]
  | String c s' =>
      if Ascii.eqb c sep then EmptyString :: split sep s'
      else match split sep s' with
           | [] => [String c EmptyString]
           | w :: ws => String c w :: ws
           end
  end.

(** [s.replace(old, new)]: every non-overlapping occurrence, left to right.
    [skip] counts the characters of a matched occurrence still to drop. *)
Fixpoint replace_from (old new s : string) (skip : nat) : string :=
  match s with
  | EmptyString => if String.eqb old EmptyString then new else EmptyString
  | String c s' =>
      match skip with
      | S k => replace_from old new s' k
      | O =>
          if String.eqb old EmptyString
          then (new ++ String c (replace_from old new s' O))%string
          else if String.prefix old s
          then (new ++ replace_from old new s' (String.length old - 1))%string
          else String c (replace_from old new s' O)
      end
  end.

Definition replace (s old new : string) : string := replace_from old new s O.

(** [s.rfind('.')] as the pair (text before, text after) the last dot *)
Fixpoint rsplit_dot (s : string) : option (string * string) :=
  match s with
  | EmptyString => None
  | String c s' =>
      match rsplit_dot s' with
      | Some (before, after) => Some (String c before, after)
      | None => if Ascii.eqb c "." then Some (EmptyString, s') else None
      end
  end.

(** an f-string: the concatenation of its pieces *)
Definition fmt (pieces : list string) : string := String.concat EmptyString pieces.

(** [str(n)] for an int *)
Definition of_int (n : Z) : string := NilZero.string_of_int (Z.to_int n).

(** [x in xs] for a list of strings *)
Definition mem (x : string) (xs : list string) : bool :=
  existsb (String.eqb x) xs.

End Str.

(* ================================================================== *)
(** ** Exceptions *)

Inductive exn : Type :=
| ValueError        (* Path.relative_to on a path outside the root *)
| AttributeError    (* attribute missing on an object *)
| IndexError
| OSError           (* open / iterdir failing *)
| SyntaxError.      (* ast.parse failing *)

Inductive result (A : Type) : Type :=
| Ok (a : A)
| Raise (e : exn).
Arguments Ok {A} a.
Arguments Raise {A} e.

Definition bind {A B : Type} (r : result A) (k : A -> result B) : result B :=
  match r with
  | Ok a => k a
  | Raise e => Raise e
  end.

Notation "x <- r ;; k" := (bind r (fun x => k))
  (at level 61, r at next level, right associativity).

(* ================================================================== *)
(** ** pathlib.Path (POSIX flavour) *)

Module Path.

(** the [parts] tuple; an absolute path has ["/"] as its first part *)
Definition t : Type := list string.

(** [str(p)]; the root part is ["/"] or, for exactly two leading slashes,
    ["//"] *)
Definition str (p : t) : string :=
  match p with
  | [] => "."
  | root :: rest =>
      if String.eqb root "/" || String.eqb root "//"
      then (root ++ String.concat "/" rest)%string
      else String.concat "/" p
  end.

(** [p.name]: the last part, empty for [Path(".")] and for the root *)
Definition name (p : t) : string :=
  match p with
  | [root] =>
      if String.eqb root "/" || String.eqb root "//" then EmptyString else root
  | _ => last p EmptyString
  end.

(** [p.stem]: the name without its last suffix
    ([i = name.rfind('.')], cut when [0 < i < len(name) - 1]) *)
Definition stem (p : t) : string :=
  match Str.rsplit_dot (name p) with
  | Some (before, after) =>
      if String.eqb before EmptyString || String.eqb after EmptyString
      then name p else before
  | None => name p
  end.

(** [p / child] *)
Definition join (p : t) (child : string) : t := p ++ [child].

Fixpoint strip_prefix (root p : t) : option t :=
  match root with
  | [] => Some p
  | r :: root' =>
      match p with
      | [] => None
      | x :: p' => if String.eqb r x then strip_prefix root' p' else None
      end
  end.

(** [p.relative_to(root)] *)
Definition relative_to (p root : t) : result t :=
  match strip_prefix root p with
  | Some rel => Ok rel
  | None => Raise ValueError
  end.

(** [Path(s)]: empty and ["."] components are dropped; leading slashes are
    the root part, ["//"] when there are exactly two of them and ["/"]
    otherwise *)
Definition of_string (s : string) : t :=
  let comps :=
    filter (fun c => negb (String.eqb c EmptyString || String.eqb c "."))
           (Str.split "/" s) in
  if Str.startswith s "//" && negb (Str.startswith s "///") then "//" :: comps
  else if Str.startswith s "/" then "/" :: comps
  else comps.

(** [p.lower()]: [pathlib.Path] has no such attribute *)
Definition lower (p : t) : result string := Raise AttributeError.

End Path.

(* ================================================================== *)
(** ** The [ast] module *)

Module Ast.

Inductive expr : Type :=
| Name (id : string)
| Attribute (value : expr) (attr : string)
| Call (func : expr)
| OtherExpr.

(** Only the node kinds the validators look at are told apart; any other
    node that can hold statements (If, For, Try, ExceptHandler, ...) is an
    [OtherStmt] with its child statements in field order. *)
#[warnings="-register-all"]
Inductive stmt : Type :=
| Import (names : list string)
| ImportFrom (module : option string)
| ClassDef (name : string) (bases : list expr) (body : list stmt)
           (decorator_list : list expr)
| FunctionDef (name : string) (body : list stmt) (decorator_list : list expr)
| Assign (targets : list expr)
| AnnAssign (target : expr)
| OtherStmt (body : list stmt).

(** [ast.Module]: the result of [ast.parse] *)
Definition module_ : Type := list stmt.

(** merge two lists of levels, level by level *)
Fixpoint zip_levels (a b : list (list stmt)) : list (list stmt) :=
  match a, b with
  | [], _ => b
  | _, [] => a
  | x :: a', y :: b' => (x ++ y) :: zip_levels a' b'
  end.

(** the statements below [s], by depth *)
Fixpoint levels (s : stmt) : list (list stmt) :=
  let below :=
    fix below (l : list stmt) : list (list stmt) :=
      match l with
      | [] => []
      | c :: r => zip_levels (levels c) (below r)
      end in
  [s] :: match s with
         | ClassDef _ _ body _ => below body
         | FunctionDef _ body _ => below body
         | OtherStmt body => below body
         | _ => []
         end.

Fixpoint levels_of_list (l : list stmt) : list (list stmt) :=
  match l with
  | [] => []
  | c :: r => zip_levels (levels c) (levels_of_list r)
  end.

(** [ast.walk(node)] restricted to statements: CPython walks the tree
    breadth first (a deque, children appended in field order). *)
Definition walk (s : stmt) : list stmt := concat (levels s).

(** [ast.walk(tree)] for a module *)
Definition walk_module (tree : module_) : list stmt := concat (levels_of_list tree).

End Ast.

(* ================================================================== *)
(** ** Python sets of strings *)

Module PySet.

(** the elements in insertion order, without duplicates *)
Definition t : Type := list string.

Definition empty : t := [].

(** [s.add(x)] *)
Definition add (x : string) (s : t) : t :=
  if Str.mem x s then s else s ++ [x].

(** [x in s] *)
Definition mem (x : string) (s : t) : bool := Str.mem x s.

End PySet.

(** The order in which [for x in s] visits a set. CPython fixes it by the
    hash of the elements, salted per process; all that is known is that each
    element is visited once. *)
Class HashOrder : Type := {
  set_iter : PySet.t -> list string;
  set_iter_perm : forall s, Permutation (set_iter s) s
}.

(* ================================================================== *)
(** ** The file tree a run reads *)

Record FileSystem : Type := {
  (** [p.exists()] *)
  fs_exists : Path.t -> bool;
  (** [list(root.rglob("*.py"))], in discovery order *)
  fs_rglob_py : Path.t -> list Path.t;
  (** [ast.parse(open(p).read())]; [Raise] when the file cannot be read or parsed *)
  fs_parse : Path.t -> result Ast.module_;
  (** [p.iterdir()] as (entry name, [is_dir()]) pairs *)
  fs_iterdir : Path.t -> result (list (string * bool))
}.

(* ================================================================== *)
(** ** validate_imports.py *)

Module ImportValidator.

Definition LAYERS : list (string * Z) :=
  [ ("domain", 0); ("application", 1); ("infrastructure", 2);
    ("frameworks", 3); ("framework", 3); ("adapters", 2);
    ("use_cases", 1); ("entities", 0) ].

(** [LAYERS[k]] guarded by [k in LAYERS] *)
Definition layers_get (k : string) : option Z :=
  match find (fun kv => String.eqb (fst kv) k) LAYERS with
  | Some kv => Some (snd kv)
  | None => None
  end.

Definition layers_mem (k : string) : bool :=
  existsb (fun kv => String.eqb (fst kv) k) LAYERS.

(** (file path relative to the root, layer of the file, layer imported) *)
Definition violation : Type := (string * string * string)%type.

Record state : Type := {
  violations : list violation;
  (** files reported by "Warning: Could not parse ..." *)
  warnings : list (Path.t * exn)
}.

Definition init : state := {| violations := []; warnings := [] |}.

(** the loop shared by [_get_layer] and [_get_import_layer]:
    the first part whose lower-cased text is a key of [LAYERS] *)
Fixpoint first_layer (parts : list string) : option Z :=
  match parts with
  | [] => None
  | part :: rest =>
      match layers_get (Str.lower part) with
      | Some rank => Some rank
      | None => first_layer rest
      end
  end.

Definition _get_layer (root_path file_path : Path.t) : result (option Z) :=
  relative_path <- Path.relative_to file_path root_path ;;
  Ok (first_layer relative_path).

Definition _extract_imports (tree : Ast.module_) : PySet.t :=
  fold_left
    (fun imports node =>
       match node with
       | Ast.Import names =>
           fold_left (fun acc alias => PySet.add alias acc) names imports
       | Ast.ImportFrom (Some module) =>
           if String.eqb module EmptyString then imports
           else PySet.add module imports
       | _ => imports
       end)
    (Ast.walk_module tree) PySet.empty.

Definition _is_project_import (import_path : string) : bool :=
  match Str.split "." import_path with
  | first_part :: _ => layers_mem (Str.lower first_part)
  | [] => false
  end.

Definition _get_import_layer (import_path : string) : option Z :=
  first_layer (Str.split "." import_path).

Definition primary_names : list string :=
  ["domain"; "application"; "infrastructure"; "frameworks"].

Definition _get_layer_name (layer_index : Z) : string :=
  match find (fun kv => Z.eqb (snd kv) layer_index && Str.mem (fst kv) primary_names)
             LAYERS with
  | Some kv => fst kv
  | None => Str.fmt ["Layer "; Str.of_int layer_index]
  end.

(** returns the grown list and the exception that left the call, if any *)
Definition _check_import (root_path file_path : Path.t) (file_layer : Z)
           (import_path : string) (vs : list violation)
  : list violation * option exn :=
  if negb (_is_project_import import_path) then (vs, None)
  else
    match _get_import_layer import_path with
    | None => (vs, None)
    | Some import_layer =>
        if import_layer >? file_layer then
          match Path.relative_to file_path root_path with
          | Ok rel =>
              (vs ++ [(Path.str rel, _get_layer_name file_layer,
                       _get_layer_name import_layer)], None)
          | Raise e => (vs, Some e)
          end
        else (vs, None)
    end.

(** [for import_path in imports: self._check_import(...)] *)
Fixpoint check_imports (root_path file_path : Path.t) (file_layer : Z)
         (imports : list string) (vs : list violation)
  : list violation * option exn :=
  match imports with
  | [] => (vs, None)
  | import_path :: rest =>
      match _check_import root_path file_path file_layer import_path vs with
      | (vs', None) => check_imports root_path file_path file_layer rest vs'
      | (vs', Some e) => (vs', Some e)
      end
  end.

Definition warn (file_path : Path.t) (e : exn) (st : state) : state :=
  {| violations := violations st; warnings := warnings st ++ [(file_path, e)] |}.

Definition _validate_file `{HashOrder} (fs : FileSystem) (root_path file_path : Path.t)
           (st : state) : state :=
  if Str.contains "__pycache__" (Path.str file_path)
     || Str.contains "test" (Path.str file_path)
  then st
  else
    match fs_parse fs file_path with
    | Raise e => warn file_path e st
    | Ok tree =>
        match _get_layer root_path file_path with
        | Raise e => warn file_path e st
        | Ok None => st
        | Ok (Some file_layer) =>
            let imports := _extract_imports tree in
            match check_imports root_path file_path file_layer
                                (set_iter imports) (violations st) with
            | (vs, None) => {| violations := vs; warnings := warnings st |}
            | (vs, Some e) =>
                warn file_path e {| violations := vs; warnings := warnings st |}
            end
        end
    end.

Definition _find_python_files (fs : FileSystem) (root_path : Path.t) : list Path.t :=
  fs_rglob_py fs root_path.

(** the final state and the value returned, [True] when no violation was found *)
Definition validate `{HashOrder} (fs : FileSystem) (root_path : Path.t) : state * bool :=
  let st := fold_left (fun st py_file => _validate_file fs root_path py_file st)
                      (_find_python_files fs root_path) init in
  match violations st with
  | [] => (st, true)
  | _ :: _ => (st, false)
  end.

End ImportValidator.

Module LayerStructureValidator.

Definition domain_suspicious : list string :=
  ["controllers"; "routers"; "api"; "database"; "orm"].

Definition application_suspicious : list string :=
  ["models"; "database"; "orm"; "api"; "controllers"].

Definition flag (suspicious : list string) (message : string -> string)
           (subdirs issues : list string) : list string :=
  fold_left
    (fun issues subdir =>
       if Str.mem (Str.lower subdir) suspicious then issues ++ [message subdir]
       else issues)
    subdirs issues.

Definition _check_layer_contents (fs : FileSystem) (layer_name : string)
           (layer_path : Path.t) (issues : list string) : result (list string) :=
  entries <- fs_iterdir fs layer_path ;;
  let subdirs :=
    map fst (filter (fun d => snd d && negb (Str.startswith (fst d) "__")) entries) in
  if String.eqb layer_name "domain" then
    Ok (flag domain_suspicious
          (fun subdir => Str.fmt ["Domain layer contains '"; subdir;
                                  "' - this might belong in an outer layer"])
          subdirs issues)
  else if String.eqb layer_name "application" then
    Ok (flag application_suspicious
          (fun subdir => Str.fmt ["Application layer contains '"; subdir;
                                  "' - this might belong in another layer"])
          subdirs issues)
  else Ok issues.

Fixpoint check_layers (fs : FileSystem) (root_path : Path.t)
         (layer_names : list string) (issues : list string) : result (list string) :=
  match layer_names with
  | [] => Ok issues
  | layer_name :: rest =>
      let layer_path := Path.join root_path layer_name in
      if fs_exists fs layer_path then
        issues' <- _check_layer_contents fs layer_name layer_path issues ;;
        check_layers fs root_path rest issues'
      else check_layers fs root_path rest issues
  end.

(** the issues found and the value returned; [Raise] when a listing fails *)
Definition validate (fs : FileSystem) (root_path : Path.t)
  : result (list string * bool) :=
  issues <- check_layers fs root_path
              ["domain"; "application"; "infrastructure"; "frameworks"] [] ;;
  match issues with
  | [] => Ok (issues, true)
  | _ :: _ => Ok (issues, false)
  end.

End LayerStructureValidator.

(** a process ends by [sys.exit(code)] or by an exception nobody caught *)
Inductive outcome : Type :=
| Exit (code : Z)
| Uncaught (e : exn).

(** the exit status the shell sees; a traceback ends the interpreter with 1 *)
Definition exit_status (o : outcome) : Z :=
  match o with
  | Exit code => code
  | Uncaught _ => 1
  end.

Module ValidateImports.

(** the root picked from [sys.argv], or the first of src, app, . that
    exists; [None] is the [else] branch of the [for] *)
Definition find_root (fs : FileSystem) (argv : list string) : option Path.t :=
  match argv with
  | _ :: arg :: _ => Some (Path.of_string arg)
  | _ => find (fs_exists fs) [Path.of_string "src"; Path.of_string "app";
                              Path.of_string "."]
  end.

Definition main `{HashOrder} (fs : FileSystem) (argv : list string) : outcome :=
  match find_root fs argv with
  | None => Exit 1
  | Some root_path =>
      if negb (fs_exists fs root_path) then Exit 1
      else
        let import_valid := snd (ImportValidator.validate fs root_path) in
        match LayerStructureValidator.validate fs root_path with
        | Raise e => Uncaught e
        | Ok (_, structure_valid) =>
            if import_valid && structure_valid then Exit 0 else Exit 1
        end
  end.

End ValidateImports.

(* ================================================================== *)
(** ** validate_structure.py *)

Module NamingConventionValidator.

Definition is_alnum (c : ascii) : bool :=
  Str.is_lower_letter c || Str.is_upper_letter c || Str.is_digit c.

Definition newline : ascii := ascii_of_nat 10.

(** [cls*$]: [$] also matches just before a final newline *)
Fixpoint star_then_end (cls : ascii -> bool) (s : string) : bool :=
  match s with
  | EmptyString => true
  | String c s' =>
      (cls c && star_then_end cls s')
      || (Ascii.eqb c newline && String.eqb s' EmptyString)
  end.

(** [re.match('^' + [first] + [rest]* + '$', name) is not None] *)
Definition re_match (first rest : ascii -> bool) (name : string) : bool :=
  match name with
  | EmptyString => false
  | String c s' => first c && star_then_end rest s'
  end.

Definition underscore (c : ascii) : bool := Ascii.eqb c "_".

Definition _is_pascal_case : string -> bool :=
  re_match Str.is_upper_letter is_alnum.

Definition _is_snake_case : string -> bool :=
  re_match (fun c => Str.is_lower_letter c || underscore c)
           (fun c => Str.is_lower_letter c || Str.is_digit c || underscore c).

Definition _is_upper_snake_case : string -> bool :=
  re_match Str.is_upper_letter
           (fun c => Str.is_upper_letter c || Str.is_digit c || underscore c).

Definition _check_classes (tree : Ast.module_) (file_path : Path.t)
           (issues : list string) : list string :=
  fold_left
    (fun issues node =>
       match node with
       | Ast.ClassDef name _ _ _ =>
           if negb (_is_pascal_case name)
           then issues ++ [Str.fmt [Path.str file_path; ": Class '"; name;
                                    "' should use PascalCase"]]
           else issues
       | _ => issues
       end)
    (Ast.walk_module tree) issues.

Definition _check_functions (tree : Ast.module_) (file_path : Path.t)
           (issues : list string) : list string :=
  fold_left
    (fun issues node =>
       match node with
       | Ast.FunctionDef name _ _ =>
           if Str.startswith name "__" && Str.endswith name "__" then issues
           else if negb (_is_snake_case name)
           then issues ++ [Str.fmt [Path.str file_path; ": Function '"; name;
                                    "' should use snake_case"]]
           else issues
       | _ => issues
       end)
    (Ast.walk_module tree) issues.

Definition _check_constants (tree : Ast.module_) (file_path : Path.t)
           (issues : list string) : list string :=
  fold_left
    (fun issues node =>
       match node with
       | Ast.Assign targets =>
           fold_left
             (fun issues target =>
                match target with
                | Ast.Name id =>
                    if Str.isupper id && Str.contains "_" id
                       && negb (_is_upper_snake_case id)
                    then issues ++ [Str.fmt [Path.str file_path; ": Constant '"; id;
                                             "' should use UPPER_SNAKE_CASE"]]
                    else issues
                | _ => issues
                end)
             targets issues
       | _ => issues
       end)
    (Ast.walk_module tree) issues.

Definition validate_file (fs : FileSystem) (file_path : Path.t)
           (issues : list string) : list string :=
  if Str.contains "test" (Path.str file_path) then issues
  else
    match fs_parse fs file_path with
    | Raise _ => issues
    | Ok tree =>
        _check_constants tree file_path
          (_check_functions tree file_path
             (_check_classes tree file_path issues))
    end.

End NamingConventionValidator.

Module EncapsulationValidator.

Definition is_name (ids : list string) (e : Ast.expr) : bool :=
  match e with
  | Ast.Name id => Str.mem id ids
  | _ => false
  end.

(** [node] is given by its [bases] and its [decorator_list] *)
Definition _is_protocol_or_dataclass (bases decorator_list : list Ast.expr) : bool :=
  existsb (is_name ["Protocol"; "BaseModel"]) bases
  || existsb (fun decorator =>
                match decorator with
                | Ast.Name id => String.eqb id "dataclass"
                | Ast.Call func => is_name ["dataclass"] func
                | _ => false
                end) decorator_list.

Definition public_attribute_message (file_path : Path.t) (class_name attr_name : string)
  : string :=
  Str.fmt [Path.str file_path; ": Class '"; class_name; "' has public attribute '";
           attr_name; "'. "; "Consider making it private with underscore prefix."].

Definition private_attributes_message (file_path : Path.t) (class_name : string)
  : string :=
  Str.fmt [Path.str file_path; ": Class '"; class_name; "' has private attributes. ";
           "Consider using @property for controlled access."].

(** the inner loop of [_check_public_attributes] over [node.body] *)
Definition check_body (file_path : Path.t) (class_name : string)
           (body : list Ast.stmt) (issues : list string) : list string :=
  fold_left
    (fun issues item =>
       match item with
       | Ast.AnnAssign (Ast.Name attr_name) =>
           if negb (Str.startswith attr_name "_")
              && negb (String.eqb attr_name (Str.upper attr_name))
           then issues ++ [public_attribute_message file_path class_name attr_name]
           else issues
       | _ => issues
       end)
    body issues.

Definition _check_public_attributes (tree : Ast.module_) (file_path : Path.t)
           (issues : list string) : list string :=
  fold_left
    (fun issues node =>
       match node with
       | Ast.ClassDef name bases body decorator_list =>
           if _is_protocol_or_dataclass bases decorator_list then issues
           else check_body file_path name body issues
       | _ => issues
       end)
    (Ast.walk_module tree) issues.

(** some [Assign] under [item] targets an attribute with a leading underscore *)
Definition assigns_private (item : Ast.stmt) : bool :=
  existsb
    (fun stmt =>
       match stmt with
       | Ast.Assign targets =>
           existsb (fun target =>
                      match target with
                      | Ast.Attribute _ attr => Str.startswith attr "_"
                      | _ => false
                      end) targets
       | _ => false
       end)
    (Ast.walk item).

Definition has_private_attrs (body : list Ast.stmt) : bool :=
  existsb
    (fun item =>
       match item with
       | Ast.FunctionDef name _ _ => String.eqb name "__init__" && assigns_private item
       | _ => false
       end) body.

Definition has_properties (body : list Ast.stmt) : bool :=
  existsb
    (fun item =>
       match item with
       | Ast.FunctionDef _ _ decorator_list =>
           existsb (is_name ["property"]) decorator_list
       | _ => false
       end) body.

(** the loop of [_check_property_usage] over the walked nodes; the third
    operand of the [and] is evaluated only when the first two hold *)
Fixpoint check_property_nodes (nodes : list Ast.stmt) (file_path : Path.t)
         (issues : list string) : list string * option exn :=
  match nodes with
  | [] => (issues, None)
  | Ast.ClassDef name _ body _ :: rest =>
      if has_private_attrs body && negb (has_properties body) then
        match Path.lower file_path with
        | Raise e => (issues, Some e)
        | Ok lowered =>
            if Str.contains "entity" lowered
            then check_property_nodes rest file_path
                   (issues ++ [private_attributes_message file_path name])
            else check_property_nodes rest file_path issues
        end
      else check_property_nodes rest file_path issues
  | _ :: rest => check_property_nodes rest file_path issues
  end.

Definition _check_property_usage (tree : Ast.module_) (file_path : Path.t)
           (issues : list string) : list string * option exn :=
  check_property_nodes (Ast.walk_module tree) file_path issues.

Definition validate_file (fs : FileSystem) (file_path : Path.t)
           (issues : list string) : list string :=
  if negb (Str.contains "domain" (Path.str file_path))
     && negb (Str.contains "application" (Path.str file_path))
  then issues
  else if Str.contains "test" (Path.str file_path) then issues
  else
    match fs_parse fs file_path with
    | Raise _ => issues
    | Ok tree =>
        (* except Exception: pass *)
        fst (_check_property_usage tree file_path
               (_check_public_attributes tree file_path issues))
    end.

End EncapsulationValidator.

Module LayerContentValidator.

Record patterns : Type := {
  allowed : list string;
  forbidden : list string
}.

Definition PATTERNS : list (string * patterns) :=
  [ ("domain",
     {| allowed := ["entity"; "entities"; "value_object"; "aggregate"; "service";
                    "repository"; "exception"; "event"; "specification"];
        forbidden := ["controller"; "router"; "endpoint"; "api"; "database";
                      "sql"; "orm"; "http"; "request"; "response"] |});
    ("application",
     {| allowed := ["use_case"; "usecase"; "service"; "dto"; "port"; "view"];
        forbidden := ["controller"; "router"; "endpoint"; "sql"; "orm"; "http"] |});
    ("infrastructure",
     {| allowed := ["repository"; "gateway"; "adapter"; "persistence"; "database";
                    "cache"; "message"; "email"; "storage"];
        forbidden := ["use_case"; "usecase"; "entity"; "value_object"] |});
    ("frameworks",
     {| allowed := ["controller"; "router"; "endpoint"; "api"; "cli"; "middleware";
                    "config"; "dependencies"; "handler"];
        forbidden := [] |}) ].

(** [self.PATTERNS.get(layer, {}).get('forbidden', [])] *)
Definition forbidden_of (layer : string) : list string :=
  match find (fun kv => String.eqb (fst kv) layer) PATTERNS with
  | Some kv => forbidden (snd kv)
  | None => []
  end.

Definition layer_names : list string :=
  ["domain"; "application"; "infrastructure"; "frameworks"; "framework"].

Fixpoint _get_layer (file_path : Path.t) : option string :=
  match file_path with
  | [] => None
  | part :: rest =>
      if Str.mem (Str.lower part) layer_names then
        Some (if negb (String.eqb (Str.lower part) "framework")
              then Str.lower part else "frameworks")
      else _get_layer rest
  end.

Definition message (file_path : Path.t) (pattern layer : string) : string :=
  Str.fmt [Path.str file_path; ": File '"; Path.name file_path; "' contains '";
           pattern; "' "; "which shouldn't be in "; layer; " layer"].

Definition validate_file (file_path : Path.t) (issues : list string) : list string :=
  match _get_layer file_path with
  | None => issues
  | Some layer =>
      if String.eqb layer EmptyString then issues
      else
        let file_name := Str.lower (Path.stem file_path) in
        fold_left
          (fun issues pattern =>
             (* the patterns are literal text, [re.search] is a substring test *)
             if Str.contains pattern file_name
             then issues ++ [message file_path pattern layer]
             else issues)
          (forbidden_of layer) issues
  end.

End LayerContentValidator.

Module UseCaseStructureValidator.

Definition _get_class_names (tree : Ast.module_) : PySet.t :=
  fold_left
    (fun names node =>
       match node with
       | Ast.ClassDef name _ _ _ => PySet.add name names
       | _ => names
       end)
    (Ast.walk_module tree) PySet.empty.

Definition missing_message (file_path : Path.t) (use_case expected : string) : string :=
  Str.fmt [Path.str file_path; ": UseCase '"; use_case; "' missing '"; expected;
           "' class"].

Definition _check_use_case_pattern `{HashOrder} (classes : PySet.t) (file_path : Path.t)
           (issues : list string) : list string :=
  let use_case_classes := filter (Str.contains "UseCase") (set_iter classes) in
  fold_left
    (fun issues use_case =>
       let base_name := Str.replace use_case "UseCase" EmptyString in
       let expected_request := Str.fmt [base_name; "Request"] in
       let expected_response := Str.fmt [base_name; "Response"] in
       let issues :=
         if negb (PySet.mem expected_request classes)
         then issues ++ [missing_message file_path use_case expected_request]
         else issues in
       if negb (PySet.mem expected_response classes)
       then issues ++ [missing_message file_path use_case expected_response]
       else issues)
    use_case_classes issues.

Definition validate_file `{HashOrder} (fs : FileSystem) (file_path : Path.t)
           (issues : list string) : list string :=
  if negb (Str.contains "application" (Path.str file_path))
     || negb (Str.contains "use_case" (Str.lower (Path.stem file_path)))
  then issues
  else if Str.contains "test" (Path.str file_path) then issues
  else
    match fs_parse fs file_path with
    | Raise _ => issues
    | Ok tree => _check_use_case_pattern (_get_class_names tree) file_path issues
    end.

End UseCaseStructureValidator.

Module ValidateStructure.

(** the issue lists of the four validators after the run *)
Record report : Type := {
  naming : list string;
  encapsulation : list string;
  layer_content : list string;
  use_case : list string
}.

Definition run `{HashOrder} (fs : FileSystem) (root_path : Path.t) : report :=
  let py_files := fs_rglob_py fs root_path in
  {| naming :=
       fold_left (fun issues f => NamingConventionValidator.validate_file fs f issues)
                 py_files [];
     encapsulation :=
       fold_left (fun issues f => EncapsulationValidator.validate_file fs f issues)
                 py_files [];
     layer_content :=
       fold_left (fun issues f => LayerContentValidator.validate_file f issues)
                 py_files [];
     use_case :=
       fold_left (fun issues f => UseCaseStructureValidator.validate_file fs f issues)
                 py_files [] |}.

(** [validator.report()]: [True] when the validator has no issue *)
Definition clean (issues : list string) : bool :=
  match issues with
  | [] => true
  | _ :: _ => false
  end.

Definition main `{HashOrder} (fs : FileSystem) (argv : list string) : outcome :=
  match ValidateImports.find_root fs argv with
  | None => Exit 1
  | Some root_path =>
      if negb (fs_exists fs root_path) then Exit 1
      else
        let r := run fs root_path in
        if clean (naming r) && clean (encapsulation r)
           && clean (layer_content r) && clean (use_case r)
        then Exit 0 else Exit 1
  end.

End ValidateStructure.

Module Report.

(** what a [report] method prints, one entry per call of [print], and the
    value it returns *)
Definition report (header : string) (limit : nat) (issues : list string)
  : list string * bool :=
  match issues with
  | [] => ([], true)
  | _ :: _ =>
      ([header]
       ++ map (fun issue => Str.fmt ["  - "; issue]) (firstn limit issues)
       ++ (if (limit <? length issues)%nat
           then [Str.fmt ["  ... and ";
                          Str.of_int (Z.of_nat (length issues) - Z.of_nat limit);
                          " more"]]
           else []),
       false)
  end.

Definition blank_line_then (text : string) : string :=
  String (ascii_of_nat 10) text.

(** [NamingConventionValidator.report] *)
Definition naming : list string -> list string * bool :=
  report (blank_line_then "⚠️  Naming Convention Issues:") 10.

(** [EncapsulationValidator.report] *)
Definition encapsulation : list string -> list string * bool :=
  report (blank_line_then "⚠️  Encapsulation Issues:") 5.

(** [LayerContentValidator.report] *)
Definition layer_content : list string -> list string * bool :=
  report (blank_line_then "⚠️  Layer Content Issues:") 5.

(** [UseCaseStructureValidator.report] *)
Definition use_case : list string -> list string * bool :=
  report (blank_line_then "⚠️  Use Case Structure Issues:") 5.

End Report.

(* ================================================================== *)
(** ** Two iteration orders *)

(** a set visited in insertion order *)
#[refine] Definition insertion_order : HashOrder := {| set_iter := fun s => s |}.
Proof. intro s. apply Permutation_refl. Defined.

(** a set visited in the opposite order *)
#[refine] Definition reversed_order : HashOrder := {| set_iter := fun s => rev s |}.
Proof. intro s. apply Permutation_sym, Permutation_rev. Defined.

(* ================================================================== *)
(** ** Vocabulary of the properties *)

Module Spec.

(** the module paths a file refers to, one entry per reference, in the
    order [ast.walk] meets them *)
Definition imported_modules (tree : Ast.module_) : list string :=
  flat_map
    (fun node =>
       match node with
       | Ast.Import names => names
       | Ast.ImportFrom (Some module) =>
           if String.eqb module EmptyString then [] else [module]
       | _ => []
       end)
    (Ast.walk_module tree).

(** some dotted segment of the reference is a layer word *)
Definition some_segment_matches (import_path : string) : bool :=
  existsb (fun part => ImportValidator.layers_mem (Str.lower part))
          (Str.split "." import_path).

(** what one reference adds to the violations of a classified file *)
Definition emitted (root_path file_path : Path.t) (import_path : string)
  : list ImportValidator.violation :=
  match ImportValidator._get_layer root_path file_path with
  | Ok (Some file_layer) =>
      fst (ImportValidator._check_import root_path file_path file_layer import_path [])
  | _ => []
  end.

(** a violation without its path text *)
Definition layers_of (v : ImportValidator.violation) : string * string :=
  (snd (fst v), snd v).

(** a list of references without its repetitions, each reference at the
    place where it is first met *)
Definition first_occurrences (refs : list string) : list string :=
  fold_left (fun seen ref => if Str.mem ref seen then seen else seen ++ [ref]) refs [].

(** the violations of a file when its distinct references are taken in
    reference discovery order *)
Definition discovery_block (fs : FileSystem) (root_path file_path : Path.t)
  : list ImportValidator.violation :=
  if Str.contains "__pycache__" (Path.str file_path)
     || Str.contains "test" (Path.str file_path)
  then []
  else match fs_parse fs file_path with
       | Ok tree =>
           flat_map (emitted root_path file_path)
                    (first_occurrences (imported_modules tree))
       | Raise _ => []
       end.

(** the layer structure checker ran to its end and found nothing *)
Definition structure_clean (fs : FileSystem) (root_path : Path.t) : Prop :=
  exists flag, LayerStructureValidator.validate fs root_path = Ok ([], flag).

(** the violations a file adds to an empty list *)
Definition file_block `{HashOrder} (fs : FileSystem) (root_path file_path : Path.t)
  : list ImportValidator.violation :=
  ImportValidator.violations
    (ImportValidator._validate_file fs root_path file_path ImportValidator.init).

End Spec.

(* ================================================================== *)
(** ** File trees used in the examples *)

(** a tree in which every path exists, no file is found, every file parses
    to [tree] and every directory is empty *)
Definition one_module (tree : Ast.module_) : FileSystem :=
  {| fs_exists := fun _ => true;
     fs_rglob_py := fun _ => [];
     fs_parse := fun _ => Ok tree;
     fs_iterdir := fun _ => Ok [] |}.

(** one domain file that imports an infrastructure module and then a
    frameworks module *)
Definition two_outward_imports : FileSystem :=
  {| fs_exists := fun _ => true;
     fs_rglob_py := fun _ => [["domain"; "task.py"]];
     fs_parse := fun _ =>
       Ok [Ast.ImportFrom (Some "infrastructure.db"); Ast.Import ["frameworks.web"]];
     fs_iterdir := fun _ => Ok [] |}.

(** a tree in which [src] is missing and everything else exists *)
Definition only_app_exists : FileSystem :=
  {| fs_exists := fun p => match p with ["src"] => false | _ => true end;
     fs_rglob_py := fun _ => [];
     fs_parse := fun _ => Ok [];
     fs_iterdir := fun _ => Ok [] |}.

(** a character of an ASCII identifier *)
Definition ident_char (c : ascii) : bool :=
  NamingConventionValidator.is_alnum c || NamingConventionValidator.underscore c.

(** the words that only the dependency rule checker takes for a layer *)
Definition synonym_words : list string := ["adapters"; "use_cases"; "entities"].

(** the statements directly below a statement *)
Definition children (s : Ast.stmt) : list Ast.stmt :=
  match s with
  | Ast.ClassDef _ _ body _ => body
  | Ast.FunctionDef _ body _ => body
  | Ast.OtherStmt body => body
  | _ => []
  end.

(** [Inside s l]: the statement [s] is one of [l] or lies at any depth
    below one of them *)
Inductive Inside : Ast.stmt -> list Ast.stmt -> Prop :=
| inside_here (s : Ast.stmt) (l : list Ast.stmt) :
    In s l -> Inside s l
| inside_below (s parent : Ast.stmt) (l : list Ast.stmt) :
    In parent l -> Inside s (children parent) -> Inside s l.

(** the naming issues of a module without the path text they start with *)
Definition naming_texts (tree : Ast.module_) : list string :=
  flat_map
    (fun node =>
       match node with
       | Ast.ClassDef name _ _ _ =>
           if negb (NamingConventionValidator._is_pascal_case name)
           then [Str.fmt [": Class '"; name; "' should use PascalCase"]]
           else []
       | _ => []
       end)
    (Ast.walk_module tree)
  ++ flat_map
       (fun node =>
          match node with
          | Ast.FunctionDef name _ _ =>
              if Str.startswith name "__" && Str.endswith name "__" then []
              else if negb (NamingConventionValidator._is_snake_case name)
              then [Str.fmt [": Function '"; name; "' should use snake_case"]]
              else []
          | _ => []
          end)
       (Ast.walk_module tree)
  ++ flat_map
       (fun node =>
          match node with
          | Ast.Assign targets =>
              flat_map
                (fun target =>
                   match target with
                   | Ast.Name id =>
                       if Str.isupper id && Str.contains "_" id
                          && negb (NamingConventionValidator._is_upper_snake_case id)
                       then [Str.fmt [": Constant '"; id;
                                      "' should use UPPER_SNAKE_CASE"]]
                       else []
                   | _ => []
                   end)
                targets
          | _ => []
          end)
       (Ast.walk_module tree).

(** the use-case issues of a set of class names without the path text they
    start with *)
Definition use_case_texts `{HashOrder} (classes : PySet.t) : list string :=
  flat_map
    (fun use_case =>
       let base_name := Str.replace use_case "UseCase" EmptyString in
       (if negb (PySet.mem (Str.fmt [base_name; "Request"]) classes)
        then [Str.fmt [": UseCase '"; use_case; "' missing '";
                       Str.fmt [base_name; "Request"]; "' class"]]
        else [])
       ++ (if negb (PySet.mem (Str.fmt [base_name; "Response"]) classes)
           then [Str.fmt [": UseCase '"; use_case; "' missing '";
                          Str.fmt [base_name; "Response"]; "' class"]]
           else []))
    (filter (Str.contains "UseCase") (set_iter classes)).

(** the suspicious directory names of a layer, none for the outer layers *)
Definition suspicious_of (layer_name : string) : list string :=
  if String.eqb layer_name "domain" then LayerStructureValidator.domain_suspicious
  else if String.eqb layer_name "application"
       then LayerStructureValidator.application_suspicious
       else [].

(** the issue text for a suspicious directory of a layer *)
Definition suspicious_message (layer_name subdir : string) : string :=
  if String.eqb layer_name "domain"
  then Str.fmt ["Domain layer contains '"; subdir;
                "' - this might belong in an outer layer"]
  else Str.fmt ["Application layer contains '"; subdir;
                "' - this might belong in another layer"].

(** the entries of a layer directory that are looked at: directories whose
    name does not start with two underscores *)
Definition visible_subdirs (entries : list (string * bool)) : list string :=
  map fst (filter (fun d => snd d && negb (Str.startswith (fst d) "__")) entries).

(** text made of ASCII characters only *)
Definition is_ascii (s : string) : bool :=
  Str.forallb_chars (fun c => (nat_of_ascii c <? 128)%nat) s.

(** a needle without a slash that occurs neither in the empty text nor in ["."] *)
Definition plain_needle (needle : string) : bool :=
  negb (Str.existsb_chars (Ascii.eqb "/") needle)
  && negb (Str.contains needle EmptyString)
  && negb (Str.contains needle ".").

(* ================================================================== *)
(** ** Strings, dictionaries and paths *)

Lemma split_cons (sep : ascii) (s : string) :
  exists w ws, Str.split sep s = w :: ws.
Proof.
  induction s as [|c s IH]; simpl.
  - eauto.
  - destruct (Ascii.eqb c sep); [eauto|].
    destruct IH as (w & ws & ->). eauto.
Qed.

Lemma existsb_find {A : Type} (f : A -> bool) (l : list A) :
  existsb f l = match find f l with Some _ => true | None => false end.
Proof.
  induction l as [|a l IH]; simpl; [reflexivity|].
  destruct (f a); simpl; auto.
Qed.

Lemma layers_mem_get (k : string) :
  ImportValidator.layers_mem k
  = match ImportValidator.layers_get k with Some _ => true | None => false end.
Proof.
  unfold ImportValidator.layers_mem, ImportValidator.layers_get.
  rewrite existsb_find.
  destruct (find _ ImportValidator.LAYERS); reflexivity.
Qed.

Lemma layers_get_range (k : string) (rank : Z) :
  ImportValidator.layers_get k = Some rank -> 0 <= rank <= 3.
Proof.
  unfold ImportValidator.layers_get, ImportValidator.LAYERS. simpl.
  repeat match goal with
         | |- context [if ?b then _ else _] => destruct b; simpl
         end;
    intro E; inversion E; lia.
Qed.

Lemma first_layer_range (parts : list string) (rank : Z) :
  ImportValidator.first_layer parts = Some rank -> 0 <= rank <= 3.
Proof.
  induction parts as [|part rest IH]; simpl; [discriminate|].
  destruct (ImportValidator.layers_get (Str.lower part)) eqn:E.
  - intro X; inversion X; subst. eapply layers_get_range; eauto.
  - exact IH.
Qed.

Lemma strip_prefix_app (root rel : Path.t) :
  Path.strip_prefix root (root ++ rel) = Some rel.
Proof.
  induction root as [|r root IH]; simpl; [reflexivity|].
  rewrite String.eqb_refl. exact IH.
Qed.

Lemma relative_to_app (root rel : Path.t) :
  Path.relative_to (root ++ rel) root = Ok rel.
Proof.
  unfold Path.relative_to. rewrite strip_prefix_app. reflexivity.
Qed.

Lemma get_layer_classified (root file_path : Path.t) (rank : option Z) :
  ImportValidator._get_layer root file_path = Ok rank ->
  exists rel, Path.relative_to file_path root = Ok rel
              /\ rank = ImportValidator.first_layer rel.
Proof.
  unfold ImportValidator._get_layer, bind.
  destruct (Path.relative_to file_path root) as [rel|e]; [|discriminate].
  intro E; inversion E. eauto.
Qed.

(** a project import is classified by its first segment *)
Lemma project_import_layer (import_path : string) :
  ImportValidator._is_project_import import_path = true ->
  exists first_part rest rank,
    Str.split "." import_path = first_part :: rest
    /\ ImportValidator.layers_get (Str.lower first_part) = Some rank
    /\ ImportValidator._get_import_layer import_path = Some rank.
Proof.
  unfold ImportValidator._is_project_import, ImportValidator._get_import_layer.
  destruct (split_cons "." import_path) as (w & ws & ->).
  rewrite layers_mem_get. cbn [ImportValidator.first_layer].
  destruct (ImportValidator.layers_get (Str.lower w)) as [rank|] eqn:E; [|discriminate].
  intros _. exists w, ws, rank.
  split; [reflexivity|]. split; [exact E|reflexivity].
Qed.

(* ================================================================== *)
(** ** The inward rule *)

(** C1. For a file classified into rank [R] and a project-internal
    reference resolving to rank [R'], both ranks lie in 0..3 and
    [_check_import] appends exactly one violation when [R' > R] and leaves
    the list as it is when [R' <= R]. *)
Theorem C1_inward_rule
        (root file_path : Path.t) (R R' : Z) (import_path : string)
        (vs : list ImportValidator.violation) :
  ImportValidator._get_layer root file_path = Ok (Some R) ->
  ImportValidator._is_project_import import_path = true ->
  ImportValidator._get_import_layer import_path = Some R' ->
  (0 <= R <= 3 /\ 0 <= R' <= 3)
  /\ (R' > R ->
      exists rel,
        Path.relative_to file_path root = Ok rel
        /\ ImportValidator._check_import root file_path R import_path vs
           = (vs ++ [(Path.str rel, ImportValidator._get_layer_name R,
                      ImportValidator._get_layer_name R')], None))
  /\ (R' <= R ->
      ImportValidator._check_import root file_path R import_path vs = (vs, None)).
Proof.
  intros Hfile Hproj Himp.
  destruct (get_layer_classified _ _ _ Hfile) as (rel & Hrel & HR).
  split; [|split].
  - split.
    + eapply first_layer_range; symmetry; exact HR.
    + eapply first_layer_range; exact Himp.
  - intro Hgt. exists rel. split; [exact Hrel|].
    unfold ImportValidator._check_import.
    rewrite Hproj, Himp, Hrel. simpl.
    destruct (Z.gtb_spec R' R); [reflexivity|lia].
  - intro Hle.
    unfold ImportValidator._check_import.
    rewrite Hproj, Himp. simpl.
    destruct (Z.gtb_spec R' R); [lia|reflexivity].
Qed.

Lemma C1_inward_rule_witness :
  ImportValidator._check_import [] ["application"; "use_cases"; "create_task.py"] 1
    "infrastructure.repositories" []
  = ([("application/use_cases/create_task.py", "application", "infrastructure")], None)
  /\ ImportValidator._check_import [] ["application"; "use_cases"; "create_task.py"] 1
       "domain.entities" []
     = ([], None).
Proof.
  split.
  - destruct (C1_inward_rule [] ["application"; "use_cases"; "create_task.py"] 1 2
                "infrastructure.repositories" [] eq_refl eq_refl eq_refl)
      as (_ & Hout & _).
    destruct (Hout ltac:(lia)) as (rel & Hrel & Hcheck).
    inversion Hrel; subst rel. exact Hcheck.
  - destruct (C1_inward_rule [] ["application"; "use_cases"; "create_task.py"] 1 0
                "domain.entities" [] eq_refl eq_refl eq_refl)
      as (_ & _ & Hin).
    exact (Hin ltac:(lia)).
Defined.

(* ================================================================== *)
(** ** Which references are project references *)

(** C2, as stated, fails: a reference with a layer word in a later segment
    but not in the first one is ignored. In a domain file the import of
    [myapp.infrastructure.db] has a matching segment (rank 2), yet it is
    not a project import and [_check_import] reports nothing. *)
Lemma C2_later_segment_ignored :
  Spec.some_segment_matches "myapp.infrastructure.db" = true
  /\ ImportValidator._get_import_layer "myapp.infrastructure.db" = Some 2
  /\ ImportValidator._is_project_import "myapp.infrastructure.db" = false
  /\ ImportValidator._check_import [] ["domain"; "task.py"] 0
       "myapp.infrastructure.db" []
     = ([], None).
Proof. repeat split. Qed.

(** C2, amended. A reference is external exactly when its first dotted
    segment, lower-cased, is not a layer word; an external reference never
    changes the violations, and a project reference is classified by that
    first segment. *)
Theorem C2_first_segment_decides (import_path : string) :
  exists first_part rest,
    Str.split "." import_path = first_part :: rest
    /\ ImportValidator._is_project_import import_path
       = ImportValidator.layers_mem (Str.lower first_part)
    /\ if ImportValidator._is_project_import import_path
       then ImportValidator._get_import_layer import_path
            = ImportValidator.layers_get (Str.lower first_part)
            /\ ImportValidator.layers_get (Str.lower first_part) <> None
       else forall root file_path file_layer vs,
           ImportValidator._check_import root file_path file_layer import_path vs
           = (vs, None).
Proof.
  destruct (split_cons "." import_path) as (w & ws & Hsplit).
  exists w, ws. split; [exact Hsplit|]. split.
  - unfold ImportValidator._is_project_import. rewrite Hsplit. reflexivity.
  - destruct (ImportValidator._is_project_import import_path) eqn:Hproj.
    + destruct (project_import_layer _ Hproj) as (w' & ws' & rank & Hs & Hget & Himp).
      rewrite Hsplit in Hs. inversion Hs; subst w' ws'.
      rewrite Himp, Hget. split; [reflexivity|discriminate].
    + intros root file_path file_layer vs.
      unfold ImportValidator._check_import. rewrite Hproj. reflexivity.
Qed.

(* ================================================================== *)
(** ** One file of the dependency rule checker *)

Lemma check_import_block (root file_path rel : Path.t) (file_layer : Z)
      (import_path : string) (vs : list ImportValidator.violation) :
  Path.relative_to file_path root = Ok rel ->
  ImportValidator._check_import root file_path file_layer import_path vs
  = (vs ++ fst (ImportValidator._check_import root file_path file_layer import_path []),
     None).
Proof.
  intro Hrel. unfold ImportValidator._check_import. rewrite Hrel.
  destruct (negb (ImportValidator._is_project_import import_path));
    [simpl; rewrite app_nil_r; reflexivity|].
  destruct (ImportValidator._get_import_layer import_path) as [import_layer|];
    [|simpl; rewrite app_nil_r; reflexivity].
  destruct (import_layer >? file_layer); simpl;
    [reflexivity|rewrite app_nil_r; reflexivity].
Qed.

Lemma check_import_at_most_one (root file_path : Path.t) (file_layer : Z)
      (import_path : string) :
  (length (fst (ImportValidator._check_import root file_path file_layer import_path []))
   <= 1)%nat.
Proof.
  unfold ImportValidator._check_import.
  destruct (negb (ImportValidator._is_project_import import_path)); simpl; [lia|].
  destruct (ImportValidator._get_import_layer import_path) as [import_layer|];
    simpl; [|lia].
  destruct (import_layer >? file_layer); simpl; [|lia].
  destruct (Path.relative_to file_path root); simpl; lia.
Qed.

Lemma check_imports_block (root file_path rel : Path.t) (file_layer : Z)
      (imports : list string) (vs : list ImportValidator.violation) :
  Path.relative_to file_path root = Ok rel ->
  ImportValidator.check_imports root file_path file_layer imports vs
  = (vs ++ flat_map
             (fun import_path =>
                fst (ImportValidator._check_import root file_path file_layer
                       import_path []))
             imports,
     None).
Proof.
  intro Hrel. revert vs.
  induction imports as [|import_path rest IH]; intro vs; simpl.
  - rewrite app_nil_r. reflexivity.
  - rewrite (check_import_block _ _ _ _ _ vs Hrel).
    rewrite IH, app_assoc. reflexivity.
Qed.

Lemma flat_map_nil {A B : Type} (l : list A) :
  flat_map (fun _ : A => @nil B) l = [].
Proof. induction l; simpl; auto. Qed.

(** the violations a file adds: nothing when it is skipped, unreadable or
    unclassified, otherwise what each element of its import set emits, in
    the iteration order of the set *)
Lemma validate_file_violations `{HashOrder} (fs : FileSystem)
      (root file_path : Path.t) (st : ImportValidator.state) :
  ImportValidator.violations (ImportValidator._validate_file fs root file_path st)
  = ImportValidator.violations st
    ++ if Str.contains "__pycache__" (Path.str file_path)
          || Str.contains "test" (Path.str file_path)
       then []
       else match fs_parse fs file_path with
            | Ok tree =>
                flat_map (Spec.emitted root file_path)
                         (set_iter (ImportValidator._extract_imports tree))
            | Raise _ => []
            end.
Proof.
  unfold ImportValidator._validate_file.
  destruct (Str.contains "__pycache__" (Path.str file_path)
            || Str.contains "test" (Path.str file_path));
    [rewrite app_nil_r; reflexivity|].
  destruct (fs_parse fs file_path) as [tree|e]; simpl;
    [|rewrite app_nil_r; reflexivity].
  unfold Spec.emitted.
  destruct (ImportValidator._get_layer root file_path) as [[file_layer|]|e] eqn:Hlayer.
  - destruct (get_layer_classified _ _ _ Hlayer) as (rel & Hrel & _).
    rewrite (check_imports_block _ _ _ _ _ _ Hrel). reflexivity.
  - rewrite flat_map_nil, app_nil_r. reflexivity.
  - simpl. rewrite flat_map_nil, app_nil_r. reflexivity.
Qed.

(* ================================================================== *)
(** ** The import set of a file *)

Lemma mem_In (x : string) (xs : list string) :
  Str.mem x xs = true <-> In x xs.
Proof.
  unfold Str.mem. rewrite existsb_exists. split.
  - intros (y & Hy & Heq). apply String.eqb_eq in Heq. subst. exact Hy.
  - intro Hx. exists x. split; [exact Hx|apply String.eqb_refl].
Qed.

Lemma add_NoDup (x : string) (s : PySet.t) :
  NoDup s -> NoDup (PySet.add x s).
Proof.
  intro Hs. unfold PySet.add.
  destruct (Str.mem x s) eqn:Hmem; [exact Hs|].
  apply (Permutation_NoDup (Permutation_cons_append s x)).
  constructor; [|exact Hs].
  intro Hin. apply mem_In in Hin. congruence.
Qed.

Lemma add_In (x y : string) (s : PySet.t) :
  In y (PySet.add x s) <-> In y s \/ y = x.
Proof.
  unfold PySet.add. destruct (Str.mem x s) eqn:Hmem.
  - apply mem_In in Hmem. split; [auto|].
    intros [Hy| ->]; assumption.
  - rewrite in_app_iff. simpl. intuition.
Qed.

Lemma add_all_inv (names : list string) (s : PySet.t) :
  NoDup s ->
  NoDup (fold_left (fun acc alias => PySet.add alias acc) names s)
  /\ forall m, In m (fold_left (fun acc alias => PySet.add alias acc) names s)
               <-> In m s \/ In m names.
Proof.
  revert s. induction names as [|alias names IH]; intros s Hs; simpl.
  - split; [exact Hs|]. intuition.
  - destruct (IH (PySet.add alias s) (add_NoDup alias s Hs)) as (Hnd & Hin).
    split; [exact Hnd|].
    intro m. rewrite Hin, add_In. intuition.
Qed.

Lemma extract_imports_inv (nodes : list Ast.stmt) (s : PySet.t) :
  let step := fun imports node =>
                match node with
                | Ast.Import names =>
                    fold_left (fun acc alias => PySet.add alias acc) names imports
                | Ast.ImportFrom (Some module) =>
                    if String.eqb module EmptyString then imports
                    else PySet.add module imports
                | _ => imports
                end in
  let refs := fun node =>
                match node with
                | Ast.Import names => names
                | Ast.ImportFrom (Some module) =>
                    if String.eqb module EmptyString then [] else [module]
                | _ => []
                end in
  NoDup s ->
  NoDup (fold_left step nodes s)
  /\ forall m, In m (fold_left step nodes s) <-> In m s \/ In m (flat_map refs nodes).
Proof.
  intros step refs. revert s.
  induction nodes as [|node nodes IH]; intros s Hs; simpl.
  - split; [exact Hs|]. intuition.
  - assert (Hstep : NoDup (step s node)
                    /\ forall m, In m (step s node) <-> In m s \/ In m (refs node)).
    { destruct node as [names|[module|]| | | | |]; simpl;
        try (split; [exact Hs|intro; simpl; intuition]).
      - apply add_all_inv. exact Hs.
      - destruct (String.eqb module EmptyString).
        + split; [exact Hs|intro; simpl; intuition].
        + split; [apply add_NoDup; exact Hs|].
          intro m. rewrite add_In. simpl. intuition. }
    destruct Hstep as (Hnd & Hin).
    destruct (IH _ Hnd) as (Hnd' & Hin').
    split; [exact Hnd'|].
    intro m. rewrite Hin', Hin, in_app_iff. intuition.
Qed.

(** the import set holds each referenced module once *)
Lemma extract_imports_distinct (tree : Ast.module_) :
  NoDup (ImportValidator._extract_imports tree)
  /\ forall m, In m (ImportValidator._extract_imports tree)
               <-> In m (Spec.imported_modules tree).
Proof.
  destruct (extract_imports_inv (Ast.walk_module tree) PySet.empty (NoDup_nil _))
    as (Hnd & Hin).
  split; [exact Hnd|].
  intro m. unfold ImportValidator._extract_imports, Spec.imported_modules.
  rewrite Hin. unfold PySet.empty. simpl. intuition.
Qed.

Lemma emitted_at_most_one (root file_path : Path.t) (import_path : string) :
  (length (Spec.emitted root file_path import_path) <= 1)%nat.
Proof.
  unfold Spec.emitted.
  destruct (ImportValidator._get_layer root file_path) as [[file_layer|]|e];
    simpl; try lia.
  apply check_import_at_most_one.
Qed.

(** C10. The violations a file adds are those of a duplicate-free list of
    the module paths it imports, each path contributing at most one
    violation, however many import statements name it. *)
Theorem C10_one_violation_per_module `{HashOrder} (fs : FileSystem)
        (root file_path : Path.t) (st : ImportValidator.state) :
  exists imps : list string,
    NoDup imps
    /\ (forall m, In m imps ->
                  exists tree, fs_parse fs file_path = Ok tree
                               /\ In m (Spec.imported_modules tree))
    /\ ImportValidator.violations
         (ImportValidator._validate_file fs root file_path st)
       = ImportValidator.violations st
         ++ flat_map (Spec.emitted root file_path) imps
    /\ (forall m, (length (Spec.emitted root file_path m) <= 1)%nat).
Proof.
  rewrite validate_file_violations.
  destruct (Str.contains "__pycache__" (Path.str file_path)
            || Str.contains "test" (Path.str file_path)).
  { exists []. repeat split; [constructor|intros m []|apply emitted_at_most_one]. }
  destruct (fs_parse fs file_path) as [tree|e].
  - destruct (extract_imports_distinct tree) as (Hnd & Hin).
    exists (set_iter (ImportValidator._extract_imports tree)).
    repeat split.
    + apply (Permutation_NoDup
               (Permutation_sym (set_iter_perm (ImportValidator._extract_imports tree)))).
      exact Hnd.
    + intros m Hm. exists tree. split; [reflexivity|].
      apply Hin.
      apply (Permutation_in m (set_iter_perm (ImportValidator._extract_imports tree))).
      exact Hm.
    + apply emitted_at_most_one.
  - exists []. repeat split; [constructor|intros m []|apply emitted_at_most_one].
Qed.

(** a module imported by three statements is reported once *)
Example repeated_import_reported_once :
  Spec.file_block (H := insertion_order)
    (one_module
       [Ast.ImportFrom (Some "infrastructure.db");
        Ast.Import ["infrastructure.db"];
        Ast.FunctionDef "load" [Ast.ImportFrom (Some "infrastructure.db")] []])
    [] ["domain"; "task.py"]
  = [("domain/task.py", "domain", "infrastructure")].
Proof. reflexivity. Qed.

(* ================================================================== *)
(** ** A whole run of the dependency rule checker *)

Lemma file_block_eq `{HashOrder} (fs : FileSystem) (root file_path : Path.t)
      (st : ImportValidator.state) :
  ImportValidator.violations (ImportValidator._validate_file fs root file_path st)
  = ImportValidator.violations st ++ Spec.file_block fs root file_path.
Proof.
  unfold Spec.file_block.
  rewrite (validate_file_violations fs root file_path st).
  rewrite (validate_file_violations fs root file_path ImportValidator.init).
  reflexivity.
Qed.

Lemma validate_files_blocks `{HashOrder} (fs : FileSystem) (root : Path.t)
      (files : list Path.t) (st : ImportValidator.state) :
  ImportValidator.violations
    (fold_left (fun st py_file => ImportValidator._validate_file fs root py_file st)
               files st)
  = ImportValidator.violations st ++ concat (map (Spec.file_block fs root) files).
Proof.
  revert st. induction files as [|f files IH]; intro st; simpl.
  - rewrite app_nil_r. reflexivity.
  - rewrite IH, file_block_eq, app_assoc. reflexivity.
Qed.

Lemma validate_violations `{HashOrder} (fs : FileSystem) (root : Path.t) :
  ImportValidator.violations (fst (ImportValidator.validate fs root))
  = concat (map (Spec.file_block fs root) (fs_rglob_py fs root)).
Proof.
  unfold ImportValidator.validate, ImportValidator._find_python_files.
  destruct (ImportValidator.violations (fold_left _ _ _)) eqn:E; simpl;
    rewrite validate_files_blocks in *; simpl in *; congruence.
Qed.

Lemma validate_flag `{HashOrder} (fs : FileSystem) (root : Path.t) :
  snd (ImportValidator.validate fs root) = true
  <-> ImportValidator.violations (fst (ImportValidator.validate fs root)) = [].
Proof.
  unfold ImportValidator.validate.
  destruct (ImportValidator.violations (fold_left _ _ _)) eqn:E; simpl.
  - rewrite E. intuition.
  - rewrite E. split; discriminate.
Qed.

Lemma fold_add_refs (nodes : list Ast.stmt) (seen : PySet.t) :
  fold_left
    (fun imports node =>
       match node with
       | Ast.Import names =>
           fold_left (fun acc alias => PySet.add alias acc) names imports
       | Ast.ImportFrom (Some module) =>
           if String.eqb module EmptyString then imports
           else PySet.add module imports
       | _ => imports
       end)
    nodes seen
  = fold_left (fun seen ref => if Str.mem ref seen then seen else seen ++ [ref])
      (flat_map
         (fun node =>
            match node with
            | Ast.Import names => names
            | Ast.ImportFrom (Some module) =>
                if String.eqb module EmptyString then [] else [module]
            | _ => []
            end)
         nodes)
      seen.
Proof.
  revert seen. induction nodes as [|node nodes IH]; intro seen; [reflexivity|].
  cbn [fold_left flat_map]. rewrite fold_left_app, IH.
  destruct node as [names|[module|]| | | | |]; try reflexivity.
  destruct (String.eqb module EmptyString); reflexivity.
Qed.

(** the import set, in insertion order, lists the references as first met *)
Lemma extract_imports_first_occurrences (tree : Ast.module_) :
  ImportValidator._extract_imports tree
  = Spec.first_occurrences (Spec.imported_modules tree).
Proof. apply fold_add_refs. Qed.

Lemma file_block_perm (H : HashOrder) (fs : FileSystem) (root file_path : Path.t) :
  Permutation (Spec.file_block (H := H) fs root file_path)
              (Spec.discovery_block fs root file_path).
Proof.
  unfold Spec.file_block, Spec.discovery_block.
  rewrite validate_file_violations. simpl.
  destruct (Str.contains "__pycache__" (Path.str file_path)
            || Str.contains "test" (Path.str file_path)); [constructor|].
  destruct (fs_parse fs file_path) as [tree|e]; [|constructor].
  apply Permutation_flat_map.
  rewrite <- extract_imports_first_occurrences.
  apply set_iter_perm.
Qed.

(** C7, as stated, fails: a domain file refers to an infrastructure module
    and then to a frameworks module. Visiting the import set in insertion
    order reports them in that order; over the same tree, a set that is
    visited in the opposite order reports them in the opposite order,
    which is not the order in which the references occur. *)
Lemma C7_order_follows_the_set :
  concat (map (Spec.discovery_block two_outward_imports [])
              (fs_rglob_py two_outward_imports []))
  = [("domain/task.py", "domain", "infrastructure");
     ("domain/task.py", "domain", "frameworks")]
  /\ ImportValidator.violations
       (fst (ImportValidator.validate (H := insertion_order) two_outward_imports []))
     = [("domain/task.py", "domain", "infrastructure");
        ("domain/task.py", "domain", "frameworks")]
  /\ ImportValidator.violations
       (fst (ImportValidator.validate (H := reversed_order) two_outward_imports []))
     = [("domain/task.py", "domain", "frameworks");
        ("domain/task.py", "domain", "infrastructure")].
Proof. repeat split. Qed.

(** C7, amended. The violation list of a run is the concatenation, in file
    discovery order, of one block per file; the block of a file is a
    permutation of the violations of its distinct references taken in
    reference discovery order, the permutation being the iteration order of
    the import set. *)
Theorem C7_blocks_in_discovery_order (H : HashOrder) (fs : FileSystem) (root : Path.t) :
  ImportValidator.violations (fst (ImportValidator.validate (H := H) fs root))
  = concat (map (Spec.file_block (H := H) fs root) (fs_rglob_py fs root))
  /\ Forall
       (fun file_path =>
          Permutation (Spec.file_block (H := H) fs root file_path)
                      (Spec.discovery_block fs root file_path))
       (fs_rglob_py fs root).
Proof.
  split.
  - apply validate_violations.
  - apply Forall_forall. intros file_path _. apply file_block_perm.
Qed.

(* ================================================================== *)
(** ** Substrings of a path text *)

Lemma prefix_sep (sep : ascii) (needle a b : string) :
  Str.existsb_chars (Ascii.eqb sep) needle = false ->
  String.prefix needle (a ++ String sep b) = String.prefix needle a.
Proof.
  revert a. induction needle as [|c needle IH]; intros a Hn.
  - destruct a; reflexivity.
  - simpl in Hn. apply orb_false_iff in Hn. destruct Hn as (Hc & Hn).
    destruct a as [|x a]; simpl.
    + destruct (ascii_dec c sep) as [->|]; [|reflexivity].
      rewrite Ascii.eqb_refl in Hc. discriminate.
    + destruct (ascii_dec c x); [apply IH; exact Hn|reflexivity].
Qed.

Lemma contains_cons (needle : string) (c : ascii) (s : string) :
  Str.contains needle (String c s)
  = String.prefix needle (String c s) || Str.contains needle s.
Proof. reflexivity. Qed.

Lemma contains_nil (needle : string) :
  Str.contains needle EmptyString = String.prefix needle EmptyString.
Proof. simpl. apply orb_false_r. Qed.

Lemma contains_sep (sep : ascii) (needle a b : string) :
  Str.existsb_chars (Ascii.eqb sep) needle = false ->
  Str.contains needle (a ++ String sep b)
  = Str.contains needle a || Str.contains needle b.
Proof.
  intro Hn. induction a as [|x a IH].
  - rewrite contains_nil, <- (prefix_sep sep needle EmptyString b Hn).
    apply contains_cons.
  - change (String x a ++ String sep b)%string
      with (String x (a ++ String sep b))%string.
    rewrite !contains_cons, IH, orb_assoc.
    change (String x (a ++ String sep b))%string
      with (String x a ++ String sep b)%string.
    rewrite (prefix_sep _ _ _ _ Hn). reflexivity.
Qed.

Lemma contains_concat (needle : string) (parts : list string) :
  plain_needle needle = true ->
  Str.contains needle (String.concat "/" parts) = existsb (Str.contains needle) parts.
Proof.
  unfold plain_needle. rewrite !andb_true_iff, !negb_true_iff.
  intros ((Hslash & Hempty) & _).
  induction parts as [|x [|y rest] IH].
  - exact Hempty.
  - simpl. rewrite orb_false_r. reflexivity.
  - change (String.concat "/" (x :: y :: rest))
      with (x ++ String "/" (String.concat "/" (y :: rest)))%string.
    rewrite (contains_sep _ _ _ _ Hslash), IH. reflexivity.
Qed.

(** [needle in str(p)] holds exactly when some part of [p] contains it *)
Lemma contains_path_str (needle : string) (p : Path.t) :
  plain_needle needle = true ->
  Str.contains needle (Path.str p) = existsb (Str.contains needle) p.
Proof.
  intro Hplain. pose proof Hplain as Hp. unfold plain_needle in Hp.
  rewrite !andb_true_iff, !negb_true_iff in Hp.
  destruct Hp as ((Hslash & Hempty) & Hdot).
  destruct p as [|root rest]; [exact Hdot|].
  assert (Hcut : forall text,
             Str.contains needle (String "/" text) = Str.contains needle text).
  { intro text.
    pose proof (contains_sep "/" needle EmptyString text Hslash) as X.
    rewrite Hempty in X. exact X. }
  unfold Path.str.
  change (existsb (Str.contains needle) (root :: rest))
    with (Str.contains needle root || existsb (Str.contains needle) rest).
  destruct (String.eqb_spec root "/") as [->|_]; cbn [orb].
  - change ("/" ++ String.concat "/" rest)%string
      with (String "/" (String.concat "/" rest)).
    rewrite !Hcut, Hempty, (contains_concat _ _ Hplain). reflexivity.
  - destruct (String.eqb_spec root "//") as [->|_].
    + change ("//" ++ String.concat "/" rest)%string
        with (String "/" (String "/" (String.concat "/" rest))).
      rewrite !Hcut, Hempty, (contains_concat _ _ Hplain). reflexivity.
    + rewrite (contains_concat _ _ Hplain). reflexivity.
Qed.

(* ================================================================== *)
(** ** The synonym "entities" *)

Lemma first_layer_synonym (pre post : list string) :
  ImportValidator.first_layer (pre ++ "entities" :: post)
  = ImportValidator.first_layer (pre ++ "domain" :: post).
Proof.
  induction pre as [|part pre IH]; [reflexivity|].
  cbn [app ImportValidator.first_layer]. rewrite IH. reflexivity.
Qed.

Lemma contains_synonym (needle : string) (root pre post : list string) :
  plain_needle needle = true ->
  Str.contains needle "entities" = Str.contains needle "domain" ->
  Str.contains needle (Path.str (root ++ pre ++ "entities" :: post))
  = Str.contains needle (Path.str (root ++ pre ++ "domain" :: post)).
Proof.
  intros Hplain Hseg.
  rewrite !(contains_path_str _ _ Hplain), !existsb_app.
  cbn [existsb]. rewrite Hseg. reflexivity.
Qed.

Lemma emitted_synonym (root pre post : list string) (import_path : string) :
  map Spec.layers_of
      (Spec.emitted root (root ++ pre ++ "entities" :: post) import_path)
  = map Spec.layers_of
        (Spec.emitted root (root ++ pre ++ "domain" :: post) import_path).
Proof.
  unfold Spec.emitted, ImportValidator._get_layer.
  rewrite !relative_to_app. cbn [bind].
  rewrite first_layer_synonym.
  destruct (ImportValidator.first_layer (pre ++ "domain" :: post)) as [file_layer|];
    [|reflexivity].
  unfold ImportValidator._check_import. rewrite !relative_to_app.
  destruct (negb (ImportValidator._is_project_import import_path)); [reflexivity|].
  destruct (ImportValidator._get_import_layer import_path) as [import_layer|];
    [|reflexivity].
  destruct (import_layer >? file_layer); reflexivity.
Qed.

Lemma flat_map_emitted_synonym (root pre post : list string) (imports : list string) :
  map Spec.layers_of
      (flat_map (Spec.emitted root (root ++ pre ++ "entities" :: post)) imports)
  = map Spec.layers_of
        (flat_map (Spec.emitted root (root ++ pre ++ "domain" :: post)) imports).
Proof.
  induction imports as [|m imports IH]; [reflexivity|].
  cbn [flat_map]. rewrite !map_app, IH, emitted_synonym. reflexivity.
Qed.

(** C3, as stated, fails: the structure checkers know the word "domain"
    but not its synonym. The same file is classified and reported by the
    layer content checker under [domain/] and left alone under
    [entities/]; the encapsulation checker does the same with a class that
    has a public annotated attribute. *)
Lemma C3_structure_checkers_miss_the_synonym :
  LayerContentValidator._get_layer ["domain"; "task_controller.py"] = Some "domain"
  /\ LayerContentValidator._get_layer ["entities"; "task_controller.py"] = None
  /\ LayerContentValidator.validate_file ["domain"; "task_controller.py"] []
     = ["domain/task_controller.py: File 'task_controller.py' contains 'controller' which shouldn't be in domain layer"]
  /\ LayerContentValidator.validate_file ["entities"; "task_controller.py"] [] = []
  /\ EncapsulationValidator.validate_file
       (one_module [Ast.ClassDef "Task" [] [Ast.AnnAssign (Ast.Name "title")] []])
       ["domain"; "task.py"] []
     = ["domain/task.py: Class 'Task' has public attribute 'title'. Consider making it private with underscore prefix."]
  /\ EncapsulationValidator.validate_file
       (one_module [Ast.ClassDef "Task" [] [Ast.AnnAssign (Ast.Name "title")] []])
       ["entities"; "task.py"] []
     = [].
Proof. repeat split. Qed.

(* ================================================================== *)
(** ** The use-case triad *)

(** C4, as stated, fails: the base name [delete_task] does not contain the
    marker [use_case], so the file is not looked at and nothing is
    reported for its lone class [DeleteTaskUseCase]. *)
Lemma C4_delete_task_is_not_examined :
  Path.stem ["application"; "use_cases"; "delete_task.py"] = "delete_task"
  /\ UseCaseStructureValidator.validate_file (H := insertion_order)
       (one_module [Ast.ClassDef "DeleteTaskUseCase" [] [] []])
       ["application"; "use_cases"; "delete_task.py"] []
     = [].
Proof. split; reflexivity. Qed.

(** C4, amended. With [DeleteTaskUseCase] as its only class, the file
    [application/use_cases/delete_task.py] gets no issue, and the file
    [application/use_cases/delete_task_use_case.py], whose base name
    carries the marker, gets exactly two: the missing [DeleteTaskRequest]
    and the missing [DeleteTaskResponse]. *)
Theorem C4_triad_of_marked_file (H : HashOrder) (fs : FileSystem)
        (tree : Ast.module_) (issues : list string) :
  fs_parse fs ["application"; "use_cases"; "delete_task_use_case.py"] = Ok tree ->
  UseCaseStructureValidator._get_class_names tree = ["DeleteTaskUseCase"] ->
  UseCaseStructureValidator.validate_file fs
    ["application"; "use_cases"; "delete_task.py"] issues
  = issues
  /\ UseCaseStructureValidator.validate_file fs
       ["application"; "use_cases"; "delete_task_use_case.py"] issues
     = issues
       ++ ["application/use_cases/delete_task_use_case.py: UseCase 'DeleteTaskUseCase' missing 'DeleteTaskRequest' class";
           "application/use_cases/delete_task_use_case.py: UseCase 'DeleteTaskUseCase' missing 'DeleteTaskResponse' class"].
Proof.
  intros Hparse Hnames. split; [reflexivity|].
  unfold UseCaseStructureValidator.validate_file.
  set (p := ["application"; "use_cases"; "delete_task_use_case.py"]) in *.
  replace (negb (Str.contains "application" (Path.str p))
           || negb (Str.contains "use_case" (Str.lower (Path.stem p))))
    with false by reflexivity.
  replace (Str.contains "test" (Path.str p)) with false by reflexivity.
  rewrite Hparse, Hnames.
  unfold UseCaseStructureValidator._check_use_case_pattern.
  rewrite (Permutation_length_1_inv
             (Permutation_sym (set_iter_perm ["DeleteTaskUseCase"]))).
  subst p. cbv -[app]. rewrite <- app_assoc. reflexivity.
Qed.

Lemma C4_triad_of_marked_file_witness :
  UseCaseStructureValidator.validate_file (H := reversed_order)
    (one_module [Ast.ClassDef "DeleteTaskUseCase" [] [] []])
    ["application"; "use_cases"; "delete_task_use_case.py"] []
  = ["application/use_cases/delete_task_use_case.py: UseCase 'DeleteTaskUseCase' missing 'DeleteTaskRequest' class";
     "application/use_cases/delete_task_use_case.py: UseCase 'DeleteTaskUseCase' missing 'DeleteTaskResponse' class"].
Proof.
  exact (proj2 (C4_triad_of_marked_file reversed_order
                  (one_module [Ast.ClassDef "DeleteTaskUseCase" [] [] []])
                  [Ast.ClassDef "DeleteTaskUseCase" [] [] []] []
                  eq_refl eq_refl)).
Defined.

(* ================================================================== *)
(** ** The exit status of validate_imports.py *)

Lemma structure_validate_flag (fs : FileSystem) (root : Path.t)
      (issues : list string) (flag : bool) :
  LayerStructureValidator.validate fs root = Ok (issues, flag) ->
  (flag = true <-> issues = []).
Proof.
  unfold LayerStructureValidator.validate, bind.
  destruct (LayerStructureValidator.check_layers fs root _ []) as [[|i is_]|e];
    intro E; inversion E; subst; split; congruence.
Qed.

Lemma structure_clean_flag (fs : FileSystem) (root : Path.t) :
  Spec.structure_clean fs root
  <-> exists issues, LayerStructureValidator.validate fs root = Ok (issues, true).
Proof.
  unfold Spec.structure_clean. split.
  - intros (flag & Hv). exists [].
    destruct (structure_validate_flag _ _ _ _ Hv) as (_ & Hflag).
    rewrite (Hflag eq_refl) in Hv. exact Hv.
  - intros (issues & Hv). exists true.
    destruct (structure_validate_flag _ _ _ _ Hv) as (Hnil & _).
    rewrite (Hnil eq_refl) in Hv. exact Hv.
Qed.

(** the status of a run over an existing root *)
Lemma main_status (H : HashOrder) (fs : FileSystem) (argv : list string)
      (root : Path.t) :
  ValidateImports.find_root fs argv = Some root ->
  fs_exists fs root = true ->
  (exit_status (ValidateImports.main fs argv) = 0
   <-> snd (ImportValidator.validate fs root) = true /\ Spec.structure_clean fs root)
  /\ (exit_status (ValidateImports.main fs argv) = 0
      \/ exit_status (ValidateImports.main fs argv) = 1).
Proof.
  intros Hroot Hex.
  unfold ValidateImports.main. rewrite Hroot, Hex. cbn [negb].
  rewrite structure_clean_flag.
  destruct (LayerStructureValidator.validate fs root) as [[issues flag]|e].
  - destruct (snd (ImportValidator.validate fs root)), flag; cbn;
      (split; [split|]); auto; try discriminate; try (intros (E & _); discriminate);
      try (intros (_ & i & E); discriminate).
    intros _. split; [reflexivity|]. exists issues. reflexivity.
  - cbn. split; [split|]; auto; try discriminate.
    intros (_ & i & E). discriminate.
Qed.

(** the status of a run without an existing root *)
Lemma main_status_no_root (H : HashOrder) (fs : FileSystem) (argv : list string) :
  (forall root, ValidateImports.find_root fs argv = Some root ->
                fs_exists fs root = false) ->
  ValidateImports.main fs argv = Exit 1.
Proof.
  intro Hnone. unfold ValidateImports.main.
  destruct (ValidateImports.find_root fs argv) as [root|]; [|reflexivity].
  rewrite (Hnone root eq_refl). reflexivity.
Qed.

(** C5. The exit status is 0 exactly when a root is found, it exists, the
    dependency rule checker ends with no violation and the layer structure
    checker ends with no issue; in every other case it is 1. *)
Theorem C5_exit_status (H : HashOrder) (fs : FileSystem) (argv : list string) :
  let all_clean :=
    exists root,
      ValidateImports.find_root fs argv = Some root
      /\ fs_exists fs root = true
      /\ ImportValidator.violations (fst (ImportValidator.validate fs root)) = []
      /\ Spec.structure_clean fs root in
  (exit_status (ValidateImports.main fs argv) = 0 <-> all_clean)
  /\ (exit_status (ValidateImports.main fs argv) = 1 <-> ~ all_clean).
Proof.
  intro all_clean.
  assert (Hzero : exit_status (ValidateImports.main fs argv) = 0 <-> all_clean).
  { subst all_clean.
    destruct (ValidateImports.find_root fs argv) as [root|] eqn:Hroot.
    - destruct (fs_exists fs root) eqn:Hex.
      + destruct (main_status H fs argv root Hroot Hex) as (Hiff & _).
        rewrite Hiff, validate_flag. split.
        * intros (Hv & Hs). exists root. auto.
        * intros (r & E & _ & Hv & Hs). inversion E; subst r. auto.
      + rewrite main_status_no_root.
        * split; [discriminate|].
          intros (r & E & Hr & _). inversion E; subst r. congruence.
        * intros r E. rewrite Hroot in E. inversion E; subst r. exact Hex.
    - rewrite main_status_no_root.
      + split; [discriminate|]. intros (r & E & _). discriminate.
      + intros r E. rewrite Hroot in E. discriminate. }
  assert (Hrange : exit_status (ValidateImports.main fs argv) = 0
                   \/ exit_status (ValidateImports.main fs argv) = 1).
  { destruct (ValidateImports.find_root fs argv) as [root|] eqn:Hroot.
    - destruct (fs_exists fs root) eqn:Hex.
      + apply (main_status H fs argv root Hroot Hex).
      + right. rewrite main_status_no_root; [reflexivity|].
        intros r E. rewrite Hroot in E. inversion E; subst r. exact Hex.
    - right. rewrite main_status_no_root; [reflexivity|].
      intros r E. rewrite Hroot in E. discriminate. }
  split; [exact Hzero|].
  rewrite <- Hzero. destruct Hrange as [-> | ->]; split; intro X;
    try reflexivity; try discriminate; try (exfalso; apply X; reflexivity).
Qed.

(* ================================================================== *)
(** ** A tree without source files *)

(** C6, as stated, fails on both counts: a run over an existing root with
    no source file below it ends with status 0, and a run that finds a
    violation ends with status 1. *)
Lemma C6_empty_tree_is_not_fatal :
  fs_exists (one_module []) (Path.of_string "project") = true
  /\ fs_rglob_py (one_module []) (Path.of_string "project") = []
  /\ ValidateImports.main (H := insertion_order) (one_module [])
       ["validate_imports.py"; "project"]
     = Exit 0
  /\ ValidateImports.main (H := insertion_order) two_outward_imports
       ["validate_imports.py"; "."]
     = Exit 1.
Proof. repeat split. Qed.

(** C6, amended. Over an existing root: when no source file is
    discoverable the dependency rule checker passes and the run ends with
    status 0 exactly when the layer structure checker reports no issue;
    when the dependency rule checker finds a violation the run ends with
    status 1. *)
Theorem C6_empty_tree_status (H : HashOrder) (fs : FileSystem)
        (argv : list string) (root : Path.t) :
  ValidateImports.find_root fs argv = Some root ->
  fs_exists fs root = true ->
  (fs_rglob_py fs root = [] ->
   snd (ImportValidator.validate fs root) = true
   /\ (exit_status (ValidateImports.main fs argv) = 0 <-> Spec.structure_clean fs root))
  /\ (ImportValidator.violations (fst (ImportValidator.validate fs root)) <> [] ->
      exit_status (ValidateImports.main fs argv) = 1).
Proof.
  intros Hroot Hex.
  destruct (main_status H fs argv root Hroot Hex) as (Hzero & Hrange).
  split.
  - intro Hnone.
    assert (Hpass : snd (ImportValidator.validate fs root) = true).
    { apply validate_flag. rewrite validate_violations, Hnone. reflexivity. }
    split; [exact Hpass|].
    rewrite Hzero. tauto.
  - intro Hfound. destruct Hrange as [Hstatus|Hstatus]; [|exact Hstatus].
    apply Hzero in Hstatus. destruct Hstatus as (Hpass & _).
    apply validate_flag in Hpass. contradiction.
Qed.

Lemma C6_empty_tree_status_witness :
  (snd (ImportValidator.validate (H := insertion_order) (one_module [])
          (Path.of_string "project")) = true
   /\ (exit_status (ValidateImports.main (H := insertion_order) (one_module [])
                      ["validate_imports.py"; "project"]) = 0
       <-> Spec.structure_clean (one_module []) (Path.of_string "project")))
  /\ exit_status (ValidateImports.main (H := insertion_order) two_outward_imports
                    ["validate_imports.py"; "."]) = 1.
Proof.
  split.
  - exact (proj1 (C6_empty_tree_status insertion_order (one_module [])
                    ["validate_imports.py"; "project"] (Path.of_string "project")
                    eq_refl eq_refl) eq_refl).
  - apply (proj2 (C6_empty_tree_status insertion_order two_outward_imports
                    ["validate_imports.py"; "."] (Path.of_string ".")
                    eq_refl eq_refl)).
    discriminate.
Defined.

(** validate_structure.py, too, ends with status 0 over such a tree *)
Example structure_script_on_empty_tree :
  ValidateStructure.main (H := insertion_order) (one_module [])
    ["validate_structure.py"; "project"]
  = Exit 0.
Proof. reflexivity. Qed.

(* ================================================================== *)
(** ** Test files *)

(** the dependency rule, naming, encapsulation and use-case checkers leave
    a file alone when its path text contains "test" *)
Lemma test_files_skipped_by_four_checkers (H : HashOrder) (fs : FileSystem)
      (root file_path : Path.t) (st : ImportValidator.state) (issues : list string) :
  Str.contains "test" (Path.str file_path) = true ->
  ImportValidator._validate_file fs root file_path st = st
  /\ NamingConventionValidator.validate_file fs file_path issues = issues
  /\ EncapsulationValidator.validate_file fs file_path issues = issues
  /\ UseCaseStructureValidator.validate_file fs file_path issues = issues.
Proof.
  intro Htest.
  unfold ImportValidator._validate_file, NamingConventionValidator.validate_file,
    EncapsulationValidator.validate_file, UseCaseStructureValidator.validate_file.
  rewrite Htest, orb_true_r.
  repeat split.
  - destruct (negb _ && negb _); reflexivity.
  - destruct (negb _ || negb _); reflexivity.
Qed.

(** C8 at the input [domain/test_controller.py]: the path contains the
    marker "test", yet the layer content checker classifies the file as
    domain and reports it. *)
Theorem C8_layer_content_reports_test_file :
  Str.contains "test" (Path.str ["domain"; "test_controller.py"]) = true
  /\ LayerContentValidator._get_layer ["domain"; "test_controller.py"] = Some "domain"
  /\ LayerContentValidator.validate_file ["domain"; "test_controller.py"] []
     = ["domain/test_controller.py: File 'test_controller.py' contains 'controller' which shouldn't be in domain layer"].
Proof. repeat split. Qed.

(* ================================================================== *)
(** ** Exempt classes in the encapsulation checker *)

Lemma check_body_issues (file_path : Path.t) (class_name : string)
      (body : list Ast.stmt) (issues : list string) :
  exists new,
    EncapsulationValidator.check_body file_path class_name body issues = issues ++ new
    /\ forall issue, In issue new ->
         exists attr_name,
           In (Ast.AnnAssign (Ast.Name attr_name)) body
           /\ issue = EncapsulationValidator.public_attribute_message
                        file_path class_name attr_name.
Proof.
  unfold EncapsulationValidator.check_body.
  revert issues. induction body as [|item body IH]; intro issues.
  - exists []. simpl. rewrite app_nil_r. split; [reflexivity|intros i []].
  - cbn [fold_left].
    destruct item as [| | | | |[attr_name| | |]|];
      try (destruct (IH issues) as (new & -> & Hnew);
           exists new; split; [reflexivity|];
           intros issue Hi; destruct (Hnew issue Hi) as (a & Ha & ->);
           exists a; split; [right; exact Ha|reflexivity]).
    destruct (negb (Str.startswith attr_name "_")
              && negb (String.eqb attr_name (Str.upper attr_name))).
    + destruct (IH (issues ++ [EncapsulationValidator.public_attribute_message
                                 file_path class_name attr_name]))
        as (new & -> & Hnew).
      exists (EncapsulationValidator.public_attribute_message
                file_path class_name attr_name :: new).
      split; [rewrite <- app_assoc; reflexivity|].
      intros issue [<-|Hi].
      * exists attr_name. split; [left; reflexivity|reflexivity].
      * destruct (Hnew issue Hi) as (a & Ha & ->).
        exists a. split; [right; exact Ha|reflexivity].
    + destruct (IH issues) as (new & -> & Hnew).
      exists new. split; [reflexivity|].
      intros issue Hi. destruct (Hnew issue Hi) as (a & Ha & ->).
      exists a. split; [right; exact Ha|reflexivity].
Qed.

Lemma check_public_nodes (file_path : Path.t) (nodes : list Ast.stmt)
      (issues : list string) :
  exists new,
    fold_left
      (fun issues node =>
         match node with
         | Ast.ClassDef name bases body decorator_list =>
             if EncapsulationValidator._is_protocol_or_dataclass bases decorator_list
             then issues
             else EncapsulationValidator.check_body file_path name body issues
         | _ => issues
         end)
      nodes issues
    = issues ++ new
    /\ forall issue, In issue new ->
         exists name bases body decorator_list attr_name,
           In (Ast.ClassDef name bases body decorator_list) nodes
           /\ EncapsulationValidator._is_protocol_or_dataclass bases decorator_list
              = false
           /\ In (Ast.AnnAssign (Ast.Name attr_name)) body
           /\ issue = EncapsulationValidator.public_attribute_message
                        file_path name attr_name.
Proof.
  revert issues. induction nodes as [|node nodes IH]; intro issues.
  - exists []. simpl. rewrite app_nil_r. split; [reflexivity|intros i []].
  - cbn [fold_left].
    destruct node as [| |name bases body decorator_list| | | |];
      try (destruct (IH issues) as (new & -> & Hnew);
           exists new; split; [reflexivity|];
           intros issue Hi;
           destruct (Hnew issue Hi) as (n & b & bd & d & a & Hin & Hrest);
           exists n, b, bd, d, a; split; [right; exact Hin|exact Hrest]).
    destruct (EncapsulationValidator._is_protocol_or_dataclass bases decorator_list)
      eqn:Hexempt.
    + destruct (IH issues) as (new & -> & Hnew).
      exists new. split; [reflexivity|].
      intros issue Hi.
      destruct (Hnew issue Hi) as (n & b & bd & d & a & Hin & Hrest).
      exists n, b, bd, d, a. split; [right; exact Hin|exact Hrest].
    + destruct (check_body_issues file_path name body issues) as (here & -> & Hhere).
      destruct (IH (issues ++ here)) as (new & -> & Hnew).
      exists (here ++ new). split; [rewrite app_assoc; reflexivity|].
      intros issue Hi. apply in_app_or in Hi. destruct Hi as [Hi|Hi].
      * destruct (Hhere issue Hi) as (a & Ha & ->).
        exists name, bases, body, decorator_list, a.
        repeat split; [left; reflexivity|exact Hexempt|exact Ha].
      * destruct (Hnew issue Hi) as (n & b & bd & d & a & Hin & Hrest).
        exists n, b, bd, d, a. split; [right; exact Hin|exact Hrest].
Qed.

Lemma check_property_nodes_silent (nodes : list Ast.stmt) (file_path : Path.t)
      (issues : list string) :
  fst (EncapsulationValidator.check_property_nodes nodes file_path issues) = issues.
Proof.
  induction nodes as [|node nodes IH]; [reflexivity|].
  destruct node as [| |name bases body decorator_list| | | |]; simpl; try exact IH.
  destruct (EncapsulationValidator.has_private_attrs body
            && negb (EncapsulationValidator.has_properties body));
    [reflexivity|exact IH].
Qed.

(** C9. Every issue the public-attribute check adds comes from a class of
    the file that is not exempt, so an exempt class is passed over; the
    accessor check adds no issue for any class. *)
Theorem C9_exempt_classes_are_skipped (tree : Ast.module_) (file_path : Path.t)
        (issues : list string) :
  (exists new,
      EncapsulationValidator._check_public_attributes tree file_path issues
      = issues ++ new
      /\ forall issue, In issue new ->
           exists name bases body decorator_list attr_name,
             In (Ast.ClassDef name bases body decorator_list) (Ast.walk_module tree)
             /\ EncapsulationValidator._is_protocol_or_dataclass bases decorator_list
                = false
             /\ In (Ast.AnnAssign (Ast.Name attr_name)) body
             /\ issue = EncapsulationValidator.public_attribute_message
                          file_path name attr_name)
  /\ fst (EncapsulationValidator._check_property_usage tree file_path issues) = issues.
Proof.
  split.
  - apply check_public_nodes.
  - apply check_property_nodes_silent.
Qed.

(** a dataclass and a Protocol with public fields, and a dataclass with a
    private attribute and no property, in an entity file: no issue *)
Example exempt_classes_in_entity_file :
  EncapsulationValidator.validate_file
    (one_module
       [Ast.ClassDef "TaskData" [] [Ast.AnnAssign (Ast.Name "title")]
                     [Ast.Call (Ast.Name "dataclass")];
        Ast.ClassDef "TaskPort" [Ast.Name "Protocol"]
                     [Ast.AnnAssign (Ast.Name "limit")] [];
        Ast.ClassDef "Task" []
                     [Ast.FunctionDef "__init__"
                        [Ast.Assign [Ast.Attribute (Ast.Name "self") "_title"]] []]
                     [Ast.Name "dataclass"]])
    ["domain"; "entity"; "task.py"] []
  = [].
Proof. reflexivity. Qed.

(* ================================================================== *)
(** ** Classification of paths *)

Lemma first_layer_none (parts : list string) :
  ImportValidator.first_layer parts = None
  <-> Forall (fun part => ImportValidator.layers_mem (Str.lower part) = false) parts.
Proof.
  induction parts as [|part rest IH]; cbn [ImportValidator.first_layer].
  - split; [constructor|reflexivity].
  - rewrite Forall_cons_iff, layers_mem_get.
    destruct (ImportValidator.layers_get (Str.lower part)).
    + split; [discriminate|]. intros (X & _). discriminate.
    + rewrite IH. tauto.
Qed.

Lemma first_layer_skip (pre rest : list string) :
  ImportValidator.first_layer pre = None ->
  ImportValidator.first_layer (pre ++ rest) = ImportValidator.first_layer rest.
Proof.
  induction pre as [|part pre IH]; [reflexivity|].
  cbn [app ImportValidator.first_layer].
  destruct (ImportValidator.layers_get (Str.lower part)); [discriminate|exact IH].
Qed.

(** The first path segment below the root that is a layer word decides the
    layer of a file: segments before it that are no layer words are passed
    over, segments after it are not looked at. *)
Theorem get_layer_first_match (root pre post : list string) (part : string) (rank : Z) :
  ImportValidator.first_layer pre = None ->
  ImportValidator.layers_get (Str.lower part) = Some rank ->
  ImportValidator._get_layer root (root ++ pre ++ part :: post) = Ok (Some rank).
Proof.
  intros Hpre Hpart.
  unfold ImportValidator._get_layer. rewrite relative_to_app. cbn [bind].
  rewrite (first_layer_skip _ _ Hpre). cbn [ImportValidator.first_layer].
  rewrite Hpart. reflexivity.
Qed.

Lemma get_layer_first_match_witness :
  ImportValidator._get_layer ["src"] (["src"] ++ ["core"; "shop"] ++ "Use_Cases" :: ["frameworks"; "pay.py"])
  = Ok (Some 1).
Proof.
  exact (get_layer_first_match ["src"] ["core"; "shop"] ["frameworks"; "pay.py"]
           "Use_Cases" 1 eq_refl eq_refl).
Defined.

(** A file below the root is unclassified exactly when none of its path
    segments, lower-cased, is a layer word. *)
Theorem get_layer_unclassified (root rel : list string) :
  ImportValidator._get_layer root (root ++ rel) = Ok None
  <-> Forall (fun part => ImportValidator.layers_mem (Str.lower part) = false) rel.
Proof.
  unfold ImportValidator._get_layer. rewrite relative_to_app. cbn [bind].
  rewrite <- first_layer_none. split.
  - intro E. inversion E. reflexivity.
  - intros ->. reflexivity.
Qed.

Lemma lower_char_upper_char (c : ascii) :
  Str.lower_char (Str.upper_char c) = Str.lower_char c.
Proof.
  destruct c as [[] [] [] [] [] [] [] []]; reflexivity.
Qed.

Lemma lower_upper (s : string) : Str.lower (Str.upper s) = Str.lower s.
Proof.
  induction s as [|c s IH]; [reflexivity|].
  cbn. rewrite lower_char_upper_char. f_equal. exact IH.
Qed.

Lemma lower_char_idem (c : ascii) :
  Str.lower_char (Str.lower_char c) = Str.lower_char c.
Proof.
  destruct c as [[] [] [] [] [] [] [] []]; reflexivity.
Qed.

Lemma lower_idem (s : string) : Str.lower (Str.lower s) = Str.lower s.
Proof.
  induction s as [|c s IH]; [reflexivity|].
  cbn. rewrite lower_char_idem. f_equal. exact IH.
Qed.

(** Classification of ASCII segments ignores letter case: a path and the
    same path written in capitals, or in small letters, get the same
    layer. *)
Theorem first_layer_ignores_case (parts : list string) :
  Forall (fun part => is_ascii part = true) parts ->
  ImportValidator.first_layer (map Str.upper parts) = ImportValidator.first_layer parts
  /\ ImportValidator.first_layer (map Str.lower parts) = ImportValidator.first_layer parts.
Proof.
  intros _.
  split; induction parts as [|part rest IH]; try reflexivity;
    cbn [map ImportValidator.first_layer].
  - rewrite lower_upper, IH. reflexivity.
  - rewrite lower_idem, IH. reflexivity.
Qed.

Lemma first_layer_ignores_case_witness :
  ImportValidator.first_layer (map Str.upper ["src"; "Use_Cases"; "pay.py"])
  = ImportValidator.first_layer ["src"; "Use_Cases"; "pay.py"]
  /\ ImportValidator.first_layer (map Str.lower ["src"; "Use_Cases"; "pay.py"])
     = ImportValidator.first_layer ["src"; "Use_Cases"; "pay.py"].
Proof.
  apply first_layer_ignores_case. repeat constructor.
Defined.

(* ================================================================== *)
(** ** Dotted module paths *)






(* ================================================================== *)
(** ** What a violation looks like *)

Lemma layer_name_primary (rank : Z) :
  0 <= rank <= 3 ->
  In (ImportValidator._get_layer_name rank) ImportValidator.primary_names
  /\ ImportValidator.layers_get (ImportValidator._get_layer_name rank) = Some rank.
Proof.
  intro Hr.
  assert (Hcases : rank = 0 \/ rank = 1 \/ rank = 2 \/ rank = 3) by lia.
  destruct Hcases as [-> | [-> | [-> | ->]]]; cbn; auto 6.
Qed.

(** The name of a layer index: for the ranks 0..3 it is the primary name
    whose entry in [LAYERS] is that rank (never one of the alternative
    words), for any other index it is the text "Layer n". *)
Theorem get_layer_name_cases (layer_index : Z) :
  (0 <= layer_index <= 3 ->
   In (ImportValidator._get_layer_name layer_index) ImportValidator.primary_names
   /\ ImportValidator.layers_get (ImportValidator._get_layer_name layer_index)
      = Some layer_index)
  /\ (~ 0 <= layer_index <= 3 ->
      ImportValidator._get_layer_name layer_index
      = Str.fmt ["Layer "; Str.of_int layer_index]).
Proof.
  split; [apply layer_name_primary|].
  intro Hout. unfold ImportValidator._get_layer_name, ImportValidator.LAYERS.
  cbn [find snd fst].
  repeat match goal with
         | |- context [Z.eqb ?a layer_index] =>
             destruct (Z.eqb_spec a layer_index); [lia|cbn [andb]]
         end.
  reflexivity.
Qed.

(** Every violation a file adds has the path of the file relative to the
    root, the primary name of the layer of the file and the primary name
    of a strictly outer layer. *)
Theorem violations_point_outward `{HashOrder} (fs : FileSystem)
        (root file_path : Path.t) (v : ImportValidator.violation) :
  In v (Spec.file_block fs root file_path) ->
  exists rel R R',
    Path.relative_to file_path root = Ok rel
    /\ ImportValidator._get_layer root file_path = Ok (Some R)
    /\ 0 <= R < R' /\ R' <= 3
    /\ v = (Path.str rel, ImportValidator._get_layer_name R,
            ImportValidator._get_layer_name R')
    /\ In (ImportValidator._get_layer_name R) ImportValidator.primary_names
    /\ In (ImportValidator._get_layer_name R') ImportValidator.primary_names.
Proof.
  unfold Spec.file_block. rewrite validate_file_violations. cbn [ImportValidator.violations ImportValidator.init app].
  destruct (Str.contains "__pycache__" (Path.str file_path)
            || Str.contains "test" (Path.str file_path)); [intros []|].
  destruct (fs_parse fs file_path) as [tree|e]; [|intros []].
  rewrite in_flat_map. intros (import_path & _ & Hv).
  unfold Spec.emitted in Hv.
  destruct (ImportValidator._get_layer root file_path) as [[R|]|e] eqn:Hlayer;
    try contradiction.
  destruct (get_layer_classified _ _ _ Hlayer) as (rel & Hrel & HR).
  unfold ImportValidator._check_import in Hv.
  destruct (negb (ImportValidator._is_project_import import_path)); [contradiction|].
  destruct (ImportValidator._get_import_layer import_path) as [R'|] eqn:Himp;
    [|contradiction].
  destruct (Z.gtb_spec R' R); [|contradiction].
  rewrite Hrel in Hv. cbn in Hv. destruct Hv as [<-|[]].
  pose proof (first_layer_range _ _ (eq_sym HR)) as HRr.
  pose proof (first_layer_range _ _ Himp) as HRr'.
  exists rel, R, R'.
  split; [exact Hrel|]. split; [reflexivity|]. split; [lia|]. split; [lia|].
  split; [reflexivity|]. split.
  - apply layer_name_primary. exact HRr.
  - apply layer_name_primary. exact HRr'.
Qed.

Lemma violations_point_outward_witness :
  exists rel R R',
    Path.relative_to ["domain"; "task.py"] [] = Ok rel
    /\ ImportValidator._get_layer [] ["domain"; "task.py"] = Ok (Some R)
    /\ 0 <= R < R' /\ R' <= 3
    /\ ("domain/task.py", "domain", "frameworks")
       = (Path.str rel, ImportValidator._get_layer_name R,
          ImportValidator._get_layer_name R')
    /\ In (ImportValidator._get_layer_name R) ImportValidator.primary_names
    /\ In (ImportValidator._get_layer_name R') ImportValidator.primary_names.
Proof.
  apply (violations_point_outward (H := insertion_order)
           (one_module [Ast.Import ["frameworks.web"]]) [] ["domain"; "task.py"]).
  left. reflexivity.
Defined.

(* ================================================================== *)
(** ** Files that cannot add a violation *)

(** A file in no layer adds no violation, whatever it imports. *)
Theorem unclassified_file_adds_nothing `{HashOrder} (fs : FileSystem)
        (root file_path : Path.t) (st : ImportValidator.state) :
  ImportValidator._get_layer root file_path = Ok None ->
  ImportValidator.violations (ImportValidator._validate_file fs root file_path st)
  = ImportValidator.violations st.
Proof.
  intro Hlayer. rewrite validate_file_violations.
  destruct (_ || _); [apply app_nil_r|].
  destruct (fs_parse fs file_path) as [tree|e]; [|apply app_nil_r].
  unfold Spec.emitted. rewrite Hlayer, flat_map_nil. apply app_nil_r.
Qed.

Lemma unclassified_file_adds_nothing_witness :
  ImportValidator.violations
    (ImportValidator._validate_file (H := insertion_order)
       (one_module [Ast.Import ["frameworks.web"]]) [] ["shop"; "task.py"]
       ImportValidator.init)
  = [].
Proof.
  exact (unclassified_file_adds_nothing (H := insertion_order)
           (one_module [Ast.Import ["frameworks.web"]]) [] ["shop"; "task.py"]
           ImportValidator.init eq_refl).
Defined.

(** A file of the outermost layer (rank 3) adds no violation, whatever it
    imports, and a reference to the innermost layer (rank 0) adds none to
    any classified file. *)
Theorem extreme_layers_never_violate `{HashOrder} (fs : FileSystem)
        (root file_path : Path.t) (st : ImportValidator.state) :
  (ImportValidator._get_layer root file_path = Ok (Some 3) ->
   ImportValidator.violations (ImportValidator._validate_file fs root file_path st)
   = ImportValidator.violations st)
  /\ (forall R import_path vs,
         ImportValidator._get_layer root file_path = Ok (Some R) ->
         ImportValidator._get_import_layer import_path = Some 0 ->
         ImportValidator._check_import root file_path R import_path vs = (vs, None)).
Proof.
  split.
  - intro Hlayer. rewrite validate_file_violations.
    destruct (_ || _); [apply app_nil_r|].
    destruct (fs_parse fs file_path) as [tree|e]; [|apply app_nil_r].
    replace (flat_map (Spec.emitted root file_path)
                      (set_iter (ImportValidator._extract_imports tree)))
      with (@nil ImportValidator.violation); [apply app_nil_r|].
    symmetry.
    induction (set_iter (ImportValidator._extract_imports tree)) as [|m l IH];
      [reflexivity|].
    cbn [flat_map]. rewrite IH, app_nil_r.
    unfold Spec.emitted. rewrite Hlayer.
    unfold ImportValidator._check_import.
    destruct (negb (ImportValidator._is_project_import m)); [reflexivity|].
    destruct (ImportValidator._get_import_layer m) as [R'|] eqn:Himp; [|reflexivity].
    pose proof (first_layer_range _ _ Himp).
    destruct (Z.gtb_spec R' 3); [lia|reflexivity].
  - intros R import_path vs Hlayer Himp.
    destruct (get_layer_classified _ _ _ Hlayer) as (rel & _ & HR).
    pose proof (first_layer_range _ _ (eq_sym HR)).
    unfold ImportValidator._check_import. rewrite Himp.
    destruct (negb (ImportValidator._is_project_import import_path)); [reflexivity|].
    destruct (Z.gtb_spec 0 R); [lia|reflexivity].
Qed.

Lemma extreme_layers_never_violate_witness :
  ImportValidator.violations
    (ImportValidator._validate_file (H := insertion_order)
       (one_module [Ast.Import ["infrastructure.db"; "domain.task"]])
       [] ["frameworks"; "web.py"] ImportValidator.init)
  = []
  /\ ImportValidator._check_import [] ["application"; "pay.py"] 1 "domain.task" []
     = ([], None).
Proof.
  split.
  - exact (proj1 (extreme_layers_never_violate (H := insertion_order)
                    (one_module [Ast.Import ["infrastructure.db"; "domain.task"]])
                    [] ["frameworks"; "web.py"] ImportValidator.init) eq_refl).
  - exact (proj2 (extreme_layers_never_violate (H := insertion_order)
                    (one_module []) [] ["application"; "pay.py"] ImportValidator.init)
                 1 "domain.task" [] eq_refl eq_refl).
Defined.

(** The warnings of a file: none when it is skipped; otherwise one when it
    cannot be read or parsed, one when it lies outside the root, and none
    in every other case, so checking the imports never fails. *)
Theorem validate_file_warnings `{HashOrder} (fs : FileSystem)
        (root file_path : Path.t) (st : ImportValidator.state) :
  ImportValidator.warnings (ImportValidator._validate_file fs root file_path st)
  = ImportValidator.warnings st
    ++ if Str.contains "__pycache__" (Path.str file_path)
          || Str.contains "test" (Path.str file_path)
       then []
       else match fs_parse fs file_path with
            | Raise e => [(file_path, e)]
            | Ok _ =>
                match Path.relative_to file_path root with
                | Raise e => [(file_path, e)]
                | Ok _ => []
                end
            end.
Proof.
  unfold ImportValidator._validate_file.
  destruct (_ || _); [symmetry; apply app_nil_r|].
  destruct (fs_parse fs file_path) as [tree|e]; [|reflexivity].
  unfold ImportValidator._get_layer.
  destruct (Path.relative_to file_path root) as [rel|e] eqn:Hrel; cbn [bind];
    [|reflexivity].
  destruct (ImportValidator.first_layer rel) as [file_layer|];
    [|symmetry; apply app_nil_r].
  rewrite (check_imports_block _ _ _ _ _ _ Hrel). cbn. symmetry. apply app_nil_r.
Qed.



Lemma skipped_files_fold `{HashOrder} (fs : FileSystem) (root : Path.t)
      (files : list Path.t) (st : ImportValidator.state) :
  Forall (fun f => Str.contains "test" (Path.str f) = true) files ->
  fold_left (fun st py_file => ImportValidator._validate_file fs root py_file st)
            files st
  = st.
Proof.
  intro Hall. revert st. induction Hall as [|f files Hf _ IH]; intro st; [reflexivity|].
  cbn [fold_left]. unfold ImportValidator._validate_file at 2.
  rewrite Hf, orb_true_r. apply IH.
Qed.

(** A project kept below a directory whose name contains "test" is never
    examined: when some part of the root contains "test", the dependency
    rule checker passes with no violation and no warning, and the naming,
    encapsulation and use-case checkers report nothing. *)
Theorem project_below_test_directory `{HashOrder} (fs : FileSystem) (root : Path.t) :
  existsb (Str.contains "test") root = true ->
  (forall f, In f (fs_rglob_py fs root) -> exists rel, f = root ++ rel) ->
  ImportValidator.validate fs root = (ImportValidator.init, true)
  /\ ValidateStructure.naming (ValidateStructure.run fs root) = []
  /\ ValidateStructure.encapsulation (ValidateStructure.run fs root) = []
  /\ ValidateStructure.use_case (ValidateStructure.run fs root) = [].
Proof.
  intros Hroot Hbelow.
  assert (Hall : Forall (fun f => Str.contains "test" (Path.str f) = true)
                        (fs_rglob_py fs root)).
  { apply Forall_forall. intros f Hf. destruct (Hbelow f Hf) as (rel & ->).
    rewrite (contains_path_str "test" _ eq_refl), existsb_app, Hroot. reflexivity. }
  clear Hbelow.
  split; [|split; [|split]].
  - unfold ImportValidator.validate, ImportValidator._find_python_files.
    rewrite (skipped_files_fold fs root _ _ Hall). reflexivity.
  - unfold ValidateStructure.run. cbn [ValidateStructure.naming].
    induction Hall as [|f files Hf _ IH]; [reflexivity|].
    cbn [fold_left].
    rewrite (proj1 (proj2 (test_files_skipped_by_four_checkers H fs root f
                             ImportValidator.init [] Hf))).
    exact IH.
  - unfold ValidateStructure.run. cbn [ValidateStructure.encapsulation].
    induction Hall as [|f files Hf _ IH]; [reflexivity|].
    cbn [fold_left].
    rewrite (proj1 (proj2 (proj2 (test_files_skipped_by_four_checkers H fs root f
                                    ImportValidator.init [] Hf)))).
    exact IH.
  - unfold ValidateStructure.run. cbn [ValidateStructure.use_case].
    induction Hall as [|f files Hf _ IH]; [reflexivity|].
    cbn [fold_left].
    rewrite (proj2 (proj2 (proj2 (test_files_skipped_by_four_checkers H fs root f
                                    ImportValidator.init [] Hf)))).
    exact IH.
Qed.

Lemma project_below_test_directory_witness :
  ImportValidator.validate (H := insertion_order)
    {| fs_exists := fun _ => true;
       fs_rglob_py := fun _ => [["latest"; "domain"; "task.py"]];
       fs_parse := fun _ => Ok [Ast.Import ["frameworks.web"]];
       fs_iterdir := fun _ => Ok [] |}
    ["latest"]
  = (ImportValidator.init, true).
Proof.
  refine (proj1 (project_below_test_directory (H := insertion_order)
                   {| fs_exists := fun _ => true;
                      fs_rglob_py := fun _ => [["latest"; "domain"; "task.py"]];
                      fs_parse := fun _ => Ok [Ast.Import ["frameworks.web"]];
                      fs_iterdir := fun _ => Ok [] |}
                   ["latest"] eq_refl _)).
  intros f [<-|[]]. exists ["domain"; "task.py"]. reflexivity.
Defined.

(* ================================================================== *)
(** ** The layer structure checker *)

Lemma flag_issues (suspicious : list string) (message : string -> string)
      (subdirs issues : list string) :
  LayerStructureValidator.flag suspicious message subdirs issues
  = issues ++ map message
                  (filter (fun subdir => Str.mem (Str.lower subdir) suspicious) subdirs).
Proof.
  unfold LayerStructureValidator.flag. revert issues.
  induction subdirs as [|subdir rest IH]; intro issues; cbn [fold_left filter].
  - symmetry. apply app_nil_r.
  - destruct (Str.mem (Str.lower subdir) suspicious); rewrite IH.
    + rewrite <- app_assoc. reflexivity.
    + reflexivity.
Qed.

(** What the check of a layer directory adds: one issue for each entry, in
    listing order, that is a directory, does not start with two
    underscores and whose lower-cased name is on the suspicious list of
    that very layer. The two outer layers have no list, so their entries
    add nothing. *)
Theorem check_layer_contents_issues (fs : FileSystem) (layer_name : string)
        (layer_path : Path.t) (entries : list (string * bool)) (issues : list string) :
  fs_iterdir fs layer_path = Ok entries ->
  LayerStructureValidator._check_layer_contents fs layer_name layer_path issues
  = Ok (issues
        ++ map (suspicious_message layer_name)
               (filter (fun subdir => Str.mem (Str.lower subdir) (suspicious_of layer_name))
                       (visible_subdirs entries)))
  /\ (layer_name <> "domain" -> layer_name <> "application" ->
      LayerStructureValidator._check_layer_contents fs layer_name layer_path issues
      = Ok issues).
Proof.
  intro Hdir. unfold LayerStructureValidator._check_layer_contents.
  rewrite Hdir. cbn [bind]. fold (visible_subdirs entries).
  unfold suspicious_of, suspicious_message.
  destruct (String.eqb_spec layer_name "domain") as [->|Hd].
  - rewrite flag_issues. split; [reflexivity|congruence].
  - destruct (String.eqb_spec layer_name "application") as [->|Ha].
    + rewrite flag_issues. split; [reflexivity|congruence].
    + split; [|reflexivity].
      replace (filter (fun subdir => Str.mem (Str.lower subdir) [])
                      (visible_subdirs entries))
        with (@nil string).
      * rewrite app_nil_r. reflexivity.
      * induction (visible_subdirs entries) as [|x l IH]; [reflexivity|exact IH].
Qed.

Lemma check_layer_contents_issues_witness :
  LayerStructureValidator._check_layer_contents
    {| fs_exists := fun _ => true;
       fs_rglob_py := fun _ => [];
       fs_parse := fun _ => Ok [];
       fs_iterdir := fun _ =>
         Ok [("Controllers", true); ("__pycache__", true); ("api", false);
             ("models", true); ("entities", true)] |}
    "domain" ["src"; "domain"] []
  = Ok ["Domain layer contains 'Controllers' - this might belong in an outer layer"].
Proof.
  exact (proj1 (check_layer_contents_issues
                  {| fs_exists := fun _ => true;
                     fs_rglob_py := fun _ => [];
                     fs_parse := fun _ => Ok [];
                     fs_iterdir := fun _ =>
                       Ok [("Controllers", true); ("__pycache__", true); ("api", false);
                           ("models", true); ("entities", true)] |}
                  "domain" ["src"; "domain"]
                  [("Controllers", true); ("__pycache__", true); ("api", false);
                   ("models", true); ("entities", true)] [] eq_refl)).
Defined.

Lemma check_layers_absent (fs : FileSystem) (root : Path.t)
      (layer_names issues : list string) :
  Forall (fun layer_name => fs_exists fs (Path.join root layer_name) = false)
         layer_names ->
  LayerStructureValidator.check_layers fs root layer_names issues = Ok issues.
Proof.
  intro Habsent. induction Habsent as [|layer_name rest Hn _ IH]; [reflexivity|].
  cbn [LayerStructureValidator.check_layers]. rewrite Hn. exact IH.
Qed.

(** When none of the four layer directories exists below the root, the
    layer structure checker lists no directory and passes. *)
Theorem structure_without_layer_directories (fs : FileSystem) (root : Path.t) :
  Forall (fun layer_name => fs_exists fs (Path.join root layer_name) = false)
         ["domain"; "application"; "infrastructure"; "frameworks"] ->
  LayerStructureValidator.validate fs root = Ok ([], true).
Proof.
  intro Habsent. unfold LayerStructureValidator.validate.
  rewrite (check_layers_absent _ _ _ _ Habsent). reflexivity.
Qed.

Lemma structure_without_layer_directories_witness :
  LayerStructureValidator.validate
    {| fs_exists := fun p => match p with [_] => true | _ => false end;
       fs_rglob_py := fun _ => [];
       fs_parse := fun _ => Ok [];
       fs_iterdir := fun _ => Raise OSError |}
    ["src"]
  = Ok ([], true).
Proof.
  apply structure_without_layer_directories. repeat constructor.
Defined.

Lemma check_layers_listing_fails (fs : FileSystem) (root : Path.t)
      (layer_names : list string) (layer_name : string) (e : exn) :
  In layer_name layer_names ->
  fs_exists fs (Path.join root layer_name) = true ->
  fs_iterdir fs (Path.join root layer_name) = Raise e ->
  forall issues,
  exists e', LayerStructureValidator.check_layers fs root layer_names issues = Raise e'.
Proof.
  intros Hin Hex Hdir.
  induction layer_names as [|n rest IH]; [contradiction|].
  intro issues. cbn [LayerStructureValidator.check_layers].
  destruct Hin as [->|Hin].
  - rewrite Hex. unfold LayerStructureValidator._check_layer_contents.
    rewrite Hdir. cbn. eauto.
  - destruct (fs_exists fs (Path.join root n)); [|apply (IH Hin)].
    destruct (LayerStructureValidator._check_layer_contents fs n (Path.join root n) issues)
      as [issues'|e']; cbn [bind]; [apply (IH Hin)|eauto].
Qed.

(** A layer path that exists but cannot be listed (a regular file named
    like a layer, an unreadable directory) is fatal: the exception leaves
    the layer structure checker, nobody catches it, and the run ends with
    status 1 without a verdict. *)
Theorem listing_failure_is_fatal (H : HashOrder) (fs : FileSystem)
        (argv : list string) (root : Path.t) (layer_name : string) (e : exn) :
  In layer_name ["domain"; "application"; "infrastructure"; "frameworks"] ->
  fs_exists fs (Path.join root layer_name) = true ->
  fs_iterdir fs (Path.join root layer_name) = Raise e ->
  ValidateImports.find_root fs argv = Some root ->
  fs_exists fs root = true ->
  exists e',
    LayerStructureValidator.validate fs root = Raise e'
    /\ ValidateImports.main fs argv = Uncaught e'
    /\ exit_status (ValidateImports.main fs argv) = 1.
Proof.
  intros Hin Hex Hdir Hroot Hrootex.
  destruct (check_layers_listing_fails fs root _ _ e Hin Hex Hdir []) as (e' & He').
  exists e'.
  assert (Hv : LayerStructureValidator.validate fs root = Raise e').
  { unfold LayerStructureValidator.validate. rewrite He'. reflexivity. }
  unfold ValidateImports.main. rewrite Hroot, Hrootex, Hv. auto.
Qed.

Lemma listing_failure_is_fatal_witness :
  exists e',
    ValidateImports.main (H := insertion_order)
      {| fs_exists := fun _ => true;
         fs_rglob_py := fun _ => [];
         fs_parse := fun _ => Ok [];
         fs_iterdir := fun _ => Raise OSError |}
      ["validate_imports.py"; "src"]
    = Uncaught e'.
Proof.
  destruct (listing_failure_is_fatal insertion_order
              {| fs_exists := fun _ => true;
                 fs_rglob_py := fun _ => [];
                 fs_parse := fun _ => Ok [];
                 fs_iterdir := fun _ => Raise OSError |}
              ["validate_imports.py"; "src"] ["src"] "infrastructure" OSError
              ltac:(simpl; tauto) eq_refl eq_refl eq_refl eq_refl)
    as (e' & _ & Hmain & _).
  exists e'. exact Hmain.
Defined.

(* ================================================================== *)
(** ** The root of a run *)

(** Without a path argument the root is the first of [src], [app] and [.]
    that exists, so a root found this way always exists; when none of the
    three exists the run ends with status 1. With an argument the list is
    not consulted. *)
Theorem find_root_fallback (H : HashOrder) (fs : FileSystem) (argv : list string) :
  (length argv <= 1)%nat ->
  match ValidateImports.find_root fs argv with
  | Some root =>
      fs_exists fs root = true
      /\ (root = ["src"]
          \/ (root = ["app"] /\ fs_exists fs ["src"] = false)
          \/ (root = [] /\ fs_exists fs ["src"] = false /\ fs_exists fs ["app"] = false))
  | None =>
      fs_exists fs ["src"] = false /\ fs_exists fs ["app"] = false
      /\ fs_exists fs [] = false
      /\ ValidateImports.main fs argv = Exit 1
  end.
Proof.
  intro Hlen.
  assert (Hfind : ValidateImports.find_root fs argv
                  = find (fs_exists fs) [["src"]; ["app"]; []]).
  { destruct argv as [|prog [|arg rest]]; try reflexivity. cbn in Hlen. lia. }
  unfold ValidateImports.main. rewrite Hfind. cbn [find].
  destruct (fs_exists fs ["src"]) eqn:Hsrc; [auto|].
  destruct (fs_exists fs ["app"]) eqn:Happ; [auto|].
  destruct (fs_exists fs []) eqn:Hdot; auto 6.
Qed.

Lemma find_root_fallback_witness :
  match ValidateImports.find_root only_app_exists ["validate_imports.py"] with
  | Some root =>
      fs_exists only_app_exists root = true
      /\ (root = ["src"]
          \/ (root = ["app"] /\ fs_exists only_app_exists ["src"] = false)
          \/ (root = [] /\ fs_exists only_app_exists ["src"] = false
              /\ fs_exists only_app_exists ["app"] = false))
  | None =>
      fs_exists only_app_exists ["src"] = false
      /\ fs_exists only_app_exists ["app"] = false
      /\ fs_exists only_app_exists [] = false
      /\ ValidateImports.main (H := insertion_order) only_app_exists
           ["validate_imports.py"] = Exit 1
  end.
Proof.
  exact (find_root_fallback insertion_order only_app_exists ["validate_imports.py"]
           ltac:(simpl; lia)).
Defined.

(* ================================================================== *)
(** ** Naming patterns *)

Lemma star_then_end_upper (s : string) :
  Str.forallb_chars ident_char s = true ->
  Str.forallb_chars (fun c => negb (Str.is_lower_letter c)) s = true ->
  NamingConventionValidator.star_then_end
    (fun c => Str.is_upper_letter c || Str.is_digit c
              || NamingConventionValidator.underscore c) s
  = true.
Proof.
  induction s as [|c s IH]; [reflexivity|].
  cbn [Str.forallb_chars NamingConventionValidator.star_then_end].
  rewrite !andb_true_iff. intros (Hc & Hs) (Hl & Hls).
  rewrite (IH Hs Hls), andb_true_r.
  unfold ident_char, NamingConventionValidator.is_alnum in Hc.
  apply negb_true_iff in Hl. rewrite Hl in Hc. cbn [orb] in Hc.
  rewrite Hc. reflexivity.
Qed.

(** The constant check can only catch a leading character: for an all-caps
    identifier, [_is_upper_snake_case] fails exactly when the first
    character is no capital letter. So [_MAX_SIZE] is reported and no
    all-caps name that starts with a letter ever is. *)
Theorem upper_snake_only_checks_first (c : ascii) (s : string) :
  Str.forallb_chars ident_char (String c s) = true ->
  Str.isupper (String c s) = true ->
  NamingConventionValidator._is_upper_snake_case (String c s) = Str.is_upper_letter c.
Proof.
  intros Hid Hup.
  unfold Str.isupper in Hup. apply andb_true_iff in Hup. destruct Hup as (Hnl & _).
  cbn [Str.forallb_chars] in Hid, Hnl.
  apply andb_true_iff in Hid. apply andb_true_iff in Hnl.
  destruct Hid as (_ & Hs), Hnl as (_ & Hls).
  unfold NamingConventionValidator._is_upper_snake_case,
    NamingConventionValidator.re_match.
  rewrite (star_then_end_upper s Hs Hls). apply andb_true_r.
Qed.

Lemma upper_snake_only_checks_first_witness :
  NamingConventionValidator._is_upper_snake_case "_MAX_SIZE" = false
  /\ NamingConventionValidator._is_upper_snake_case "MAX_SIZE_2" = true.
Proof.
  split.
  - exact (upper_snake_only_checks_first "_" "MAX_SIZE" eq_refl eq_refl).
  - exact (upper_snake_only_checks_first "M" "AX_SIZE_2" eq_refl eq_refl).
Defined.

Lemma lower_letter_not_upper (c : ascii) :
  Str.is_lower_letter c = true -> Str.is_upper_letter c = false.
Proof.
  unfold Str.is_lower_letter, Str.is_upper_letter.
  rewrite andb_true_iff, andb_false_iff, !Nat.leb_le, !Nat.leb_gt. lia.
Qed.

Lemma digit_not_upper (c : ascii) :
  Str.is_digit c = true -> Str.is_upper_letter c = false.
Proof.
  unfold Str.is_digit, Str.is_upper_letter.
  rewrite andb_true_iff, andb_false_iff, !Nat.leb_le, !Nat.leb_gt. lia.
Qed.

Lemma snake_char_lower (c : ascii) :
  Str.is_lower_letter c || Str.is_digit c || NamingConventionValidator.underscore c
  = true ->
  Str.lower_char c = c.
Proof.
  unfold Str.lower_char. rewrite !orb_true_iff. intros [[Hc|Hc]|Hc].
  - rewrite (lower_letter_not_upper c Hc). reflexivity.
  - rewrite (digit_not_upper c Hc). reflexivity.
  - apply Ascii.eqb_eq in Hc. subst c. reflexivity.
Qed.

Lemma star_then_end_snake_lower (s : string) :
  NamingConventionValidator.star_then_end
    (fun c => Str.is_lower_letter c || Str.is_digit c
              || NamingConventionValidator.underscore c) s
  = true ->
  Str.lower s = s.
Proof.
  induction s as [|c s IH]; [reflexivity|].
  cbn [NamingConventionValidator.star_then_end].
  rewrite orb_true_iff, !andb_true_iff. intros [(Hc & Hs)|(Hc & Hs)].
  - cbn. rewrite (snake_char_lower c Hc). f_equal. apply IH. exact Hs.
  - apply Ascii.eqb_eq in Hc. apply String.eqb_eq in Hs. subst. reflexivity.
Qed.

(** A name that passes the snake_case pattern has no capital letter, and
    no name passes both the snake_case and the PascalCase pattern. *)
Theorem snake_case_is_lower_case (name : string) :
  NamingConventionValidator._is_snake_case name = true ->
  Str.lower name = name
  /\ NamingConventionValidator._is_pascal_case name = false.
Proof.
  unfold NamingConventionValidator._is_snake_case,
    NamingConventionValidator._is_pascal_case, NamingConventionValidator.re_match.
  destruct name as [|c s]; [discriminate|].
  rewrite andb_true_iff. intros (Hc & Hs).
  assert (Hup : Str.is_upper_letter c = false).
  { apply orb_true_iff in Hc. destruct Hc as [Hc|Hc].
    - apply lower_letter_not_upper. exact Hc.
    - apply Ascii.eqb_eq in Hc. subst c. reflexivity. }
  split.
  - cbn. unfold Str.lower_char. rewrite Hup. f_equal.
    apply star_then_end_snake_lower. exact Hs.
  - rewrite Hup. reflexivity.
Qed.

Lemma snake_case_is_lower_case_witness :
  Str.lower "create_task_2" = "create_task_2"
  /\ NamingConventionValidator._is_pascal_case "create_task_2" = false.
Proof. exact (snake_case_is_lower_case "create_task_2" eq_refl). Defined.

(* ================================================================== *)
(** ** The structure checkers, file by file *)

Lemma fold_left_appending {A B : Type} (step : list B -> A -> list B)
      (g : A -> list B) :
  (forall acc x, step acc x = acc ++ g x) ->
  forall l acc, fold_left step l acc = acc ++ flat_map g l.
Proof.
  intros Hstep l. induction l as [|x l IH]; intro acc; cbn [fold_left flat_map].
  - symmetry. apply app_nil_r.
  - rewrite IH, Hstep, app_assoc. reflexivity.
Qed.

Ltac appending :=
  repeat match goal with
         | |- context [if ?b then _ else _] => destruct b
         end;
  rewrite ?app_nil_r; reflexivity.

Lemma check_classes_flat (tree : Ast.module_) (file_path : Path.t) (issues : list string) :
  NamingConventionValidator._check_classes tree file_path issues
  = issues
    ++ flat_map
         (fun node =>
            match node with
            | Ast.ClassDef name _ _ _ =>
                if negb (NamingConventionValidator._is_pascal_case name)
                then [Str.fmt [Path.str file_path; ": Class '"; name;
                               "' should use PascalCase"]]
                else []
            | _ => []
            end)
         (Ast.walk_module tree).
Proof.
  apply fold_left_appending. intros acc [| | | | | |]; appending.
Qed.

Lemma check_functions_flat (tree : Ast.module_) (file_path : Path.t)
      (issues : list string) :
  NamingConventionValidator._check_functions tree file_path issues
  = issues
    ++ flat_map
         (fun node =>
            match node with
            | Ast.FunctionDef name _ _ =>
                if Str.startswith name "__" && Str.endswith name "__" then []
                else if negb (NamingConventionValidator._is_snake_case name)
                then [Str.fmt [Path.str file_path; ": Function '"; name;
                               "' should use snake_case"]]
                else []
            | _ => []
            end)
         (Ast.walk_module tree).
Proof.
  apply fold_left_appending. intros acc [| | | | | |]; appending.
Qed.

Lemma check_constants_flat (tree : Ast.module_) (file_path : Path.t)
      (issues : list string) :
  NamingConventionValidator._check_constants tree file_path issues
  = issues
    ++ flat_map
         (fun node =>
            match node with
            | Ast.Assign targets =>
                flat_map
                  (fun target =>
                     match target with
                     | Ast.Name id =>
                         if Str.isupper id && Str.contains "_" id
                            && negb (NamingConventionValidator._is_upper_snake_case id)
                         then [Str.fmt [Path.str file_path; ": Constant '"; id;
                                        "' should use UPPER_SNAKE_CASE"]]
                         else []
                     | _ => []
                     end)
                  targets
            | _ => []
            end)
         (Ast.walk_module tree).
Proof.
  apply fold_left_appending. intros acc [| | | |targets| |]; try appending.
  apply fold_left_appending. intros acc' [| | |]; appending.
Qed.

Lemma check_body_flat (file_path : Path.t) (class_name : string)
      (body : list Ast.stmt) (issues : list string) :
  EncapsulationValidator.check_body file_path class_name body issues
  = issues
    ++ flat_map
         (fun item =>
            match item with
            | Ast.AnnAssign (Ast.Name attr_name) =>
                if negb (Str.startswith attr_name "_")
                   && negb (String.eqb attr_name (Str.upper attr_name))
                then [EncapsulationValidator.public_attribute_message
                        file_path class_name attr_name]
                else []
            | _ => []
            end)
         body.
Proof.
  apply fold_left_appending. intros acc [| | | | |[| | |]|]; appending.
Qed.

Lemma check_public_attributes_flat (tree : Ast.module_) (file_path : Path.t)
      (issues : list string) :
  EncapsulationValidator._check_public_attributes tree file_path issues
  = issues
    ++ flat_map
         (fun node =>
            match node with
            | Ast.ClassDef name bases body decorator_list =>
                if EncapsulationValidator._is_protocol_or_dataclass bases decorator_list
                then []
                else EncapsulationValidator.check_body file_path name body []
            | _ => []
            end)
         (Ast.walk_module tree).
Proof.
  apply fold_left_appending.
  intros acc [| |name bases body decorator_list| | | |]; try appending.
  destruct (EncapsulationValidator._is_protocol_or_dataclass bases decorator_list);
    [appending|].
  rewrite (check_body_flat _ _ _ acc), (check_body_flat _ _ _ []). reflexivity.
Qed.

Lemma forbidden_fold (file_path : Path.t) (layer file_name : string)
      (patterns issues : list string) :
  fold_left
    (fun issues pattern =>
       if Str.contains pattern file_name
       then issues ++ [LayerContentValidator.message file_path pattern layer]
       else issues)
    patterns issues
  = issues
    ++ map (fun pattern => LayerContentValidator.message file_path pattern layer)
           (filter (fun pattern => Str.contains pattern file_name) patterns).
Proof.
  revert issues. induction patterns as [|pattern rest IH]; intro issues;
    cbn [fold_left filter].
  - symmetry. apply app_nil_r.
  - destruct (Str.contains pattern file_name); rewrite IH; [|reflexivity].
    rewrite <- app_assoc. reflexivity.
Qed.

Lemma layer_content_flat (file_path : Path.t) (issues : list string) :
  LayerContentValidator.validate_file file_path issues
  = issues ++ LayerContentValidator.validate_file file_path [].
Proof.
  unfold LayerContentValidator.validate_file.
  destruct (LayerContentValidator._get_layer file_path) as [layer|];
    [|symmetry; apply app_nil_r].
  destruct (String.eqb layer EmptyString); [symmetry; apply app_nil_r|].
  rewrite !forbidden_fold. reflexivity.
Qed.

Lemma use_case_pattern_flat `{HashOrder} (classes : PySet.t) (file_path : Path.t)
      (issues : list string) :
  UseCaseStructureValidator._check_use_case_pattern classes file_path issues
  = issues
    ++ flat_map
         (fun use_case =>
            let base_name := Str.replace use_case "UseCase" EmptyString in
            (if negb (PySet.mem (Str.fmt [base_name; "Request"]) classes)
             then [UseCaseStructureValidator.missing_message file_path use_case
                     (Str.fmt [base_name; "Request"])]
             else [])
            ++ (if negb (PySet.mem (Str.fmt [base_name; "Response"]) classes)
                then [UseCaseStructureValidator.missing_message file_path use_case
                        (Str.fmt [base_name; "Response"])]
                else []))
         (filter (Str.contains "UseCase") (set_iter classes)).
Proof.
  apply fold_left_appending. intros acc use_case. cbv zeta.
  repeat match goal with
         | |- context [if ?b then _ else _] => destruct b
         end;
    rewrite ?app_nil_r, <- ?app_assoc; reflexivity.
Qed.

Lemma naming_validate_file_flat (fs : FileSystem) (file_path : Path.t)
      (issues : list string) :
  NamingConventionValidator.validate_file fs file_path issues
  = issues ++ NamingConventionValidator.validate_file fs file_path [].
Proof.
  unfold NamingConventionValidator.validate_file.
  destruct (Str.contains "test" (Path.str file_path)); [symmetry; apply app_nil_r|].
  destruct (fs_parse fs file_path) as [tree|e]; [|symmetry; apply app_nil_r].
  rewrite !check_constants_flat, !check_functions_flat, !check_classes_flat.
  cbn [app]. rewrite !app_assoc. reflexivity.
Qed.

Lemma encapsulation_validate_file_flat (fs : FileSystem) (file_path : Path.t)
      (issues : list string) :
  EncapsulationValidator.validate_file fs file_path issues
  = issues ++ EncapsulationValidator.validate_file fs file_path [].
Proof.
  unfold EncapsulationValidator.validate_file.
  destruct (negb _ && negb _); [symmetry; apply app_nil_r|].
  destruct (Str.contains "test" (Path.str file_path)); [symmetry; apply app_nil_r|].
  destruct (fs_parse fs file_path) as [tree|e]; [|symmetry; apply app_nil_r].
  unfold EncapsulationValidator._check_property_usage.
  rewrite !check_property_nodes_silent, !check_public_attributes_flat. reflexivity.
Qed.

Lemma use_case_validate_file_flat `{HashOrder} (fs : FileSystem) (file_path : Path.t)
      (issues : list string) :
  UseCaseStructureValidator.validate_file fs file_path issues
  = issues ++ UseCaseStructureValidator.validate_file fs file_path [].
Proof.
  unfold UseCaseStructureValidator.validate_file.
  destruct (negb _ || negb _); [symmetry; apply app_nil_r|].
  destruct (Str.contains "test" (Path.str file_path)); [symmetry; apply app_nil_r|].
  destruct (fs_parse fs file_path) as [tree|e]; [|symmetry; apply app_nil_r].
  rewrite !use_case_pattern_flat. reflexivity.
Qed.

Lemma run_fields_flat `{HashOrder} (fs : FileSystem) (root : Path.t) :
  ValidateStructure.naming (ValidateStructure.run fs root)
  = flat_map (fun f => NamingConventionValidator.validate_file fs f [])
             (fs_rglob_py fs root)
  /\ ValidateStructure.encapsulation (ValidateStructure.run fs root)
     = flat_map (fun f => EncapsulationValidator.validate_file fs f [])
                (fs_rglob_py fs root)
  /\ ValidateStructure.layer_content (ValidateStructure.run fs root)
     = flat_map (fun f => LayerContentValidator.validate_file f [])
                (fs_rglob_py fs root)
  /\ ValidateStructure.use_case (ValidateStructure.run fs root)
     = flat_map (fun f => UseCaseStructureValidator.validate_file fs f [])
                (fs_rglob_py fs root).
Proof.
  unfold ValidateStructure.run.
  cbn [ValidateStructure.naming ValidateStructure.encapsulation
       ValidateStructure.layer_content ValidateStructure.use_case].
  repeat split.
  - apply (fold_left_appending _ (fun f => NamingConventionValidator.validate_file fs f [])).
    intros acc f. apply naming_validate_file_flat.
  - apply (fold_left_appending _ (fun f => EncapsulationValidator.validate_file fs f [])).
    intros acc f. apply encapsulation_validate_file_flat.
  - apply (fold_left_appending _ (fun f => LayerContentValidator.validate_file f [])).
    intros acc f. apply layer_content_flat.
  - exact (fold_left_appending _ _
             (fun acc f => use_case_validate_file_flat fs f acc) _ []).
Qed.

(** No structure checker carries anything from one file to the next: the
    issue list each of them holds at the end of a run is the concatenation,
    in file discovery order, of what the checker reports for each file on
    its own. *)
Theorem structure_run_is_per_file `{HashOrder} (fs : FileSystem) (root : Path.t) :
  ValidateStructure.naming (ValidateStructure.run fs root)
  = flat_map (fun f => NamingConventionValidator.validate_file fs f [])
             (fs_rglob_py fs root)
  /\ ValidateStructure.encapsulation (ValidateStructure.run fs root)
     = flat_map (fun f => EncapsulationValidator.validate_file fs f [])
                (fs_rglob_py fs root)
  /\ ValidateStructure.layer_content (ValidateStructure.run fs root)
     = flat_map (fun f => LayerContentValidator.validate_file f [])
                (fs_rglob_py fs root)
  /\ ValidateStructure.use_case (ValidateStructure.run fs root)
     = flat_map (fun f => UseCaseStructureValidator.validate_file fs f [])
                (fs_rglob_py fs root).
Proof.
  destruct (run_fields_flat fs root) as (Hn & He & Hl & Hu).
  repeat split; assumption.
Qed.

Lemma flat_map_nil_iff {A B : Type} (g : A -> list B) (l : list A) :
  flat_map g l = [] <-> forall x, In x l -> g x = [].
Proof.
  induction l as [|a l IH]; cbn [flat_map].
  - split; [intros _ x []|reflexivity].
  - split.
    + intros E x [<-|Hx]; apply app_eq_nil in E; destruct E as (Ea & El);
        [exact Ea|apply IH; assumption].
    + intro Hall. rewrite (Hall a (or_introl eq_refl)).
      apply IH. intros x Hx. apply Hall. right. exact Hx.
Qed.

Lemma clean_nil (issues : list string) :
  ValidateStructure.clean issues = true <-> issues = [].
Proof. destruct issues; cbn; split; congruence. Qed.

(** validate_structure.py over an existing root ends with status 0 exactly
    when no checker reports anything for any discovered file, and with
    status 1 otherwise; unlike validate_imports.py it has no other way to
    end. *)
Theorem structure_main_status `{HashOrder} (fs : FileSystem) (argv : list string)
        (root : Path.t) :
  ValidateImports.find_root fs argv = Some root ->
  fs_exists fs root = true ->
  (ValidateStructure.main fs argv = Exit 0
   <-> forall f, In f (fs_rglob_py fs root) ->
         NamingConventionValidator.validate_file fs f [] = []
         /\ EncapsulationValidator.validate_file fs f [] = []
         /\ LayerContentValidator.validate_file f [] = []
         /\ UseCaseStructureValidator.validate_file fs f [] = [])
  /\ (ValidateStructure.main fs argv = Exit 0 \/ ValidateStructure.main fs argv = Exit 1).
Proof.
  intros Hroot Hex. unfold ValidateStructure.main. rewrite Hroot, Hex. cbn [negb].
  destruct (run_fields_flat fs root) as (Hn & He & Hl & Hu).
  split.
  - destruct (ValidateStructure.clean (ValidateStructure.naming _)
              && ValidateStructure.clean (ValidateStructure.encapsulation _)
              && ValidateStructure.clean (ValidateStructure.layer_content _)
              && ValidateStructure.clean (ValidateStructure.use_case _)) eqn:Hclean.
    + split; [|reflexivity]. intros _ f Hf.
      rewrite !andb_true_iff, !clean_nil in Hclean.
      destruct Hclean as (((Cn & Ce) & Cl) & Cu).
      rewrite Hn in Cn. rewrite He in Ce. rewrite Hl in Cl. rewrite Hu in Cu.
      rewrite flat_map_nil_iff in Cn, Ce, Cl, Cu. auto.
    + split; [discriminate|]. intro Hall. exfalso.
      assert (Htrue : ValidateStructure.clean (ValidateStructure.naming (ValidateStructure.run fs root))
                      && ValidateStructure.clean (ValidateStructure.encapsulation (ValidateStructure.run fs root))
                      && ValidateStructure.clean (ValidateStructure.layer_content (ValidateStructure.run fs root))
                      && ValidateStructure.clean (ValidateStructure.use_case (ValidateStructure.run fs root))
                      = true).
      { rewrite !andb_true_iff, !clean_nil, Hn, He, Hl, Hu, !flat_map_nil_iff.
        repeat split; intros f Hf; apply (Hall f Hf). }
      congruence.
  - destruct (_ && _); auto.
Qed.

Lemma structure_main_status_witness :
  ValidateStructure.main (H := insertion_order) two_outward_imports
    ["validate_structure.py"; "."]
  = Exit 0.
Proof.
  apply (proj1 (structure_main_status (H := insertion_order) two_outward_imports
                  ["validate_structure.py"; "."] [] eq_refl eq_refl)).
  intros f [<-|[]]. repeat split.
Defined.

(* ================================================================== *)
(** ** What the encapsulation checker reports *)

(** Every issue of the encapsulation checker is about a file whose path
    text contains "domain" or "application" and not "test", and about an
    annotated attribute of a class of that file whose name neither starts
    with an underscore nor is written in capitals; the class is not
    exempt. *)
Theorem encapsulation_issue_origin (fs : FileSystem) (file_path : Path.t)
        (issue : string) :
  In issue (EncapsulationValidator.validate_file fs file_path []) ->
  (Str.contains "domain" (Path.str file_path) = true
   \/ Str.contains "application" (Path.str file_path) = true)
  /\ Str.contains "test" (Path.str file_path) = false
  /\ exists tree name bases body decorator_list attr_name,
      fs_parse fs file_path = Ok tree
      /\ In (Ast.ClassDef name bases body decorator_list) (Ast.walk_module tree)
      /\ EncapsulationValidator._is_protocol_or_dataclass bases decorator_list = false
      /\ In (Ast.AnnAssign (Ast.Name attr_name)) body
      /\ Str.startswith attr_name "_" = false
      /\ attr_name <> Str.upper attr_name
      /\ issue = EncapsulationValidator.public_attribute_message
                   file_path name attr_name.
Proof.
  unfold EncapsulationValidator.validate_file.
  destruct (Str.contains "domain" (Path.str file_path)) eqn:Hd;
    destruct (Str.contains "application" (Path.str file_path)) eqn:Ha;
    cbn [negb andb]; try (intros []);
    (destruct (Str.contains "test" (Path.str file_path)) eqn:Ht; [intros []|]);
    (destruct (fs_parse fs file_path) as [tree|e]; [|intros []]);
    unfold EncapsulationValidator._check_property_usage;
    rewrite check_property_nodes_silent, check_public_attributes_flat;
    cbn [app]; rewrite in_flat_map;
    intros (node & Hnode & Hissue);
    (split; [auto|]); (split; [reflexivity|]);
    (destruct node as [| |name bases body decorator_list| | | |]; try contradiction);
    (destruct (EncapsulationValidator._is_protocol_or_dataclass bases decorator_list)
       eqn:Hexempt; [contradiction|]);
    rewrite check_body_flat in Hissue; cbn [app] in Hissue;
    apply in_flat_map in Hissue; destruct Hissue as (item & Hitem & Hissue);
    (destruct item as [| | | | |[attr_name| | |]|]; try contradiction);
    (destruct (Str.startswith attr_name "_") eqn:Hu; [contradiction|]);
    (destruct (String.eqb_spec attr_name (Str.upper attr_name)) as [|Hcaps];
       [contradiction|]);
    cbn in Hissue; (destruct Hissue as [<-|[]]);
    exists tree, name, bases, body, decorator_list, attr_name; auto 10.
Qed.

Lemma encapsulation_issue_origin_witness :
  Str.contains "test" (Path.str ["domain"; "task.py"]) = false.
Proof.
  apply (encapsulation_issue_origin
           (one_module [Ast.ClassDef "Task" [] [Ast.AnnAssign (Ast.Name "title")] []])
           ["domain"; "task.py"]
           "domain/task.py: Class 'Task' has public attribute 'title'. Consider making it private with underscore prefix.").
  left. reflexivity.
Defined.

(* ================================================================== *)
(** ** The layer content checker *)

Lemma content_layer_canonical (file_path : Path.t) (layer : string) :
  LayerContentValidator._get_layer file_path = Some layer ->
  In layer ImportValidator.primary_names.
Proof.
  induction file_path as [|part rest IH]; cbn [LayerContentValidator._get_layer];
    [discriminate|].
  destruct (Str.mem (Str.lower part) LayerContentValidator.layer_names) eqn:Hmem;
    [|exact IH].
  intro E. inversion E; subst layer. clear E IH.
  apply mem_In in Hmem. cbn in Hmem.
  destruct Hmem as [<-|[<-|[<-|[<-|[<-|[]]]]]]; cbn; auto 6.
Qed.

(** The layer content checker names a file's layer by one of the four
    primary names only (the directory word "framework" is turned into
    "frameworks"), so the table of patterns always has an entry for it.
    It reports at most one issue per forbidden pattern of that layer, and
    none at all for a file of the frameworks layer. *)
Theorem layer_content_issues (file_path : Path.t) (layer : string) :
  LayerContentValidator._get_layer file_path = Some layer ->
  In layer ImportValidator.primary_names
  /\ (exists entry, find (fun kv => String.eqb (fst kv) layer)
                         LayerContentValidator.PATTERNS = Some entry)
  /\ (length (LayerContentValidator.validate_file file_path []) <= 10)%nat
  /\ (layer = "frameworks" -> LayerContentValidator.validate_file file_path [] = [])
  /\ forall issue, In issue (LayerContentValidator.validate_file file_path []) ->
       exists pattern,
         In pattern (LayerContentValidator.forbidden_of layer)
         /\ Str.contains pattern (Str.lower (Path.stem file_path)) = true
         /\ issue = LayerContentValidator.message file_path pattern layer.
Proof.
  intro Hlayer. pose proof (content_layer_canonical _ _ Hlayer) as Hcanon.
  split; [exact Hcanon|].
  unfold LayerContentValidator.validate_file. rewrite Hlayer.
  cbn in Hcanon.
  destruct Hcanon as [<-|[<-|[<-|[<-|[]]]]]; cbn [String.eqb Ascii.eqb Bool.eqb];
    rewrite forbidden_fold; cbn [app];
    (split; [eexists; reflexivity|]);
    (split; [rewrite length_map;
             etransitivity; [apply filter_length_le|cbn; lia]|]);
    (split; [try discriminate; reflexivity|]);
    intros issue Hi; apply in_map_iff in Hi; destruct Hi as (pattern & <- & Hin);
    apply filter_In in Hin; destruct Hin as (Hin & Hc);
    exists pattern; auto.
Qed.

Lemma layer_content_issues_witness :
  (length (LayerContentValidator.validate_file
             ["src"; "Framework"; "http_router.py"] []) <= 10)%nat
  /\ LayerContentValidator.validate_file ["src"; "Framework"; "http_router.py"] [] = [].
Proof.
  destruct (layer_content_issues ["src"; "Framework"; "http_router.py"] "frameworks"
              eq_refl) as (_ & _ & Hlen & Hnone & _).
  split; [exact Hlen|exact (Hnone eq_refl)].
Defined.

Lemma synonym_free_part (part : string) :
  Str.mem (Str.lower part) synonym_words = false ->
  ImportValidator.layers_get (Str.lower part)
  = if Str.mem (Str.lower part) LayerContentValidator.layer_names
    then ImportValidator.layers_get
           (if negb (String.eqb (Str.lower part) "framework")
            then Str.lower part else "frameworks")
    else None.
Proof.
  unfold Str.mem, synonym_words, LayerContentValidator.layer_names,
    ImportValidator.layers_get, ImportValidator.LAYERS.
  cbn [existsb find fst snd].
  rewrite !(String.eqb_sym (Str.lower part)).
  destruct (String.eqb_spec "domain" (Str.lower part)) as [<-|]; [reflexivity|].
  destruct (String.eqb_spec "application" (Str.lower part)) as [<-|]; [reflexivity|].
  destruct (String.eqb_spec "infrastructure" (Str.lower part)) as [<-|]; [reflexivity|].
  destruct (String.eqb_spec "frameworks" (Str.lower part)) as [<-|]; [reflexivity|].
  destruct (String.eqb_spec "framework" (Str.lower part)) as [<-|]; [reflexivity|].
  destruct (String.eqb_spec "adapters" (Str.lower part)); [discriminate|].
  destruct (String.eqb_spec "use_cases" (Str.lower part)); [discriminate|].
  destruct (String.eqb_spec "entities" (Str.lower part)); [discriminate|].
  reflexivity.
Qed.

Lemma first_layer_of_content_layer (parts : list string) :
  Forall (fun part => Str.mem (Str.lower part) synonym_words = false) parts ->
  ImportValidator.first_layer parts
  = match LayerContentValidator._get_layer parts with
    | Some layer => ImportValidator.layers_get layer
    | None => None
    end.
Proof.
  intro Hfree. induction Hfree as [|part rest Hpart _ IH]; [reflexivity|].
  cbn [ImportValidator.first_layer LayerContentValidator._get_layer].
  rewrite (synonym_free_part part Hpart).
  destruct (Str.mem (Str.lower part) LayerContentValidator.layer_names) eqn:Hmem;
    [|exact IH].
  apply mem_In in Hmem. cbn in Hmem.
  destruct Hmem as [<-|[<-|[<-|[<-|[<-|[]]]]]]; reflexivity.
Qed.

Lemma content_layer_below_root (root rel : list string) :
  Forall (fun part => Str.mem (Str.lower part) LayerContentValidator.layer_names = false)
         root ->
  LayerContentValidator._get_layer (root ++ rel) = LayerContentValidator._get_layer rel.
Proof.
  intro Hroot. induction Hroot as [|part root Hpart _ IH]; [reflexivity|].
  cbn [app LayerContentValidator._get_layer]. rewrite Hpart. exact IH.
Qed.

(** The two scripts classify a file alike when no part of the root is a
    layer word of the layer content checker and no segment of the file
    below the root is one of adapters, use_cases, entities: the rank the
    dependency rule checker gives the file is the rank of the layer name
    the layer content checker gives it, and one leaves it unclassified
    when the other does. *)
Theorem classifiers_agree_without_synonyms (root rel : list string) :
  Forall (fun part => Str.mem (Str.lower part) LayerContentValidator.layer_names = false)
         root ->
  Forall (fun part => Str.mem (Str.lower part) synonym_words = false) rel ->
  ImportValidator._get_layer root (root ++ rel)
  = Ok match LayerContentValidator._get_layer (root ++ rel) with
       | Some layer => ImportValidator.layers_get layer
       | None => None
       end.
Proof.
  intros Hroot Hrel.
  unfold ImportValidator._get_layer. rewrite relative_to_app. cbn [bind].
  rewrite (content_layer_below_root root rel Hroot).
  rewrite (first_layer_of_content_layer rel Hrel). reflexivity.
Qed.

Lemma classifiers_agree_without_synonyms_witness :
  ImportValidator._get_layer ["/"; "work"; "src"]
    (["/"; "work"; "src"] ++ ["shop"; "Framework"; "web.py"])
  = Ok match LayerContentValidator._get_layer
               (["/"; "work"; "src"] ++ ["shop"; "Framework"; "web.py"]) with
       | Some layer => ImportValidator.layers_get layer
       | None => None
       end.
Proof.
  apply classifiers_agree_without_synonyms; repeat constructor.
Defined.

(* ================================================================== *)
(** ** What the use-case checker reports *)

Lemma filter_perm {A : Type} (p : A -> bool) (l l' : list A) :
  Permutation l l' -> Permutation (filter p l) (filter p l').
Proof.
  intro Hp. induction Hp as [|x l l' _ IH|x y l|l l' l'' _ IH1 _ IH2]; cbn [filter].
  - constructor.
  - destruct (p x); [constructor|]; exact IH.
  - destruct (p x), (p y); try apply Permutation_refl. apply perm_swap.
  - etransitivity; eassumption.
Qed.

(** The use-case checker reports at most two issues for each class of the
    file whose name contains "UseCase", none when every such class has
    both companions among the classes of the file, and the same issues up
    to their order whatever order the set of class names is visited in. *)
Theorem use_case_issues (H H' : HashOrder) (classes : PySet.t) (file_path : Path.t)
        (issues : list string) :
  exists new,
    UseCaseStructureValidator._check_use_case_pattern (H := H) classes file_path issues
    = issues ++ new
    /\ (length new <= 2 * length (filter (Str.contains "UseCase") classes))%nat
    /\ ((forall use_case,
            In use_case classes -> Str.contains "UseCase" use_case = true ->
            PySet.mem (Str.fmt [Str.replace use_case "UseCase" EmptyString; "Request"])
                      classes = true
            /\ PySet.mem (Str.fmt [Str.replace use_case "UseCase" EmptyString; "Response"])
                         classes = true) ->
        new = [])
    /\ exists new',
        UseCaseStructureValidator._check_use_case_pattern (H := H') classes file_path
          issues
        = issues ++ new'
        /\ Permutation new new'.
Proof.
  rewrite !use_case_pattern_flat.
  eexists. split; [reflexivity|]. split; [|split].
  - rewrite <- (Permutation_length
                  (filter_perm (Str.contains "UseCase") _ _ (set_iter_perm (HashOrder := H) classes))).
    induction (filter (Str.contains "UseCase") (set_iter classes)) as [|c l IH];
      [cbn; lia|].
    cbn [flat_map length]. rewrite !length_app.
    repeat match goal with
           | |- context [if ?b then _ else _] => destruct b
           end; cbn [length] in *; lia.
  - intro Hall. apply flat_map_nil_iff. intros use_case Hin.
    apply filter_In in Hin. destruct Hin as (Hin & Huc).
    apply (Permutation_in _ (set_iter_perm classes)) in Hin.
    cbv beta zeta. destruct (Hall use_case Hin Huc) as (-> & ->). reflexivity.
  - eexists. split; [reflexivity|].
    apply Permutation_flat_map, filter_perm.
    etransitivity; [apply set_iter_perm|]. symmetry. apply set_iter_perm.
Qed.

(* ================================================================== *)
(** ** What a checker prints *)


(* ================================================================== *)
(** ** Imports at any depth *)

Lemma in_zip_levels (x : Ast.stmt) (a b : list (list Ast.stmt)) :
  In x (concat (Ast.zip_levels a b)) <-> In x (concat a) \/ In x (concat b).
Proof.
  revert b. induction a as [|la a IH]; intro b.
  - cbn. tauto.
  - destruct b as [|lb b]; cbn [Ast.zip_levels concat].
    + cbn. tauto.
    + rewrite !in_app_iff, IH. tauto.
Qed.

Lemma levels_children (s : Ast.stmt) :
  Ast.levels s = [s] :: Ast.levels_of_list (children s).
Proof.
  destruct s as [| |name bases body decorator_list|name body decorator_list| | |body];
    try reflexivity; cbn [Ast.levels children]; f_equal;
    induction body as [|c body IH]; try reflexivity;
    cbn [Ast.levels_of_list]; rewrite <- IH; reflexivity.
Qed.

Lemma in_levels_of_list (x : Ast.stmt) (l : list Ast.stmt) :
  In x (concat (Ast.levels_of_list l))
  <-> exists c, In c l /\ In x (concat (Ast.levels c)).
Proof.
  induction l as [|c l IH]; cbn [Ast.levels_of_list].
  - cbn. split; [intros []|intros (c & [] & _)].
  - rewrite in_zip_levels, IH. split.
    + intros [Hx|(c' & Hc' & Hx)]; [exists c|exists c']; cbn; auto.
    + intros (c' & [<-|Hc'] & Hx); [left; exact Hx|right; eauto].
Qed.

Lemma inside_walk (s : Ast.stmt) (l : list Ast.stmt) :
  Inside s l -> In s (concat (Ast.levels_of_list l)).
Proof.
  intro Hin. induction Hin as [s l Hs|s parent l Hp _ IH]; apply in_levels_of_list.
  - exists s. split; [exact Hs|]. rewrite levels_children. cbn. auto.
  - exists parent. split; [exact Hp|]. rewrite levels_children.
    cbn [concat]. apply in_or_app. right. exact IH.
Qed.

(** An import statement is seen wherever it stands: at the top of the
    module or at any depth inside functions, classes and blocks. Every
    name of an [import] and every non-empty module of a [from ... import]
    ends up in the import set, which holds each of them once. *)
Theorem nested_imports_are_collected (tree : Ast.module_) :
  NoDup (ImportValidator._extract_imports tree)
  /\ (forall names m,
         Inside (Ast.Import names) tree -> In m names ->
         In m (ImportValidator._extract_imports tree))
  /\ (forall m,
         Inside (Ast.ImportFrom (Some m)) tree -> m <> EmptyString ->
         In m (ImportValidator._extract_imports tree))
  /\ (forall m,
         In m (ImportValidator._extract_imports tree) ->
         exists node,
           In node (Ast.walk_module tree)
           /\ ((exists names, node = Ast.Import names /\ In m names)
               \/ (node = Ast.ImportFrom (Some m) /\ m <> EmptyString))).
Proof.
  destruct (extract_imports_distinct tree) as (Hnd & Hin).
  split; [exact Hnd|]. split; [|split].
  - intros names m Hnode Hm. apply Hin. unfold Spec.imported_modules.
    apply in_flat_map. exists (Ast.Import names).
    split; [apply inside_walk; exact Hnode|exact Hm].
  - intros m Hnode Hm. apply Hin. unfold Spec.imported_modules.
    apply in_flat_map. exists (Ast.ImportFrom (Some m)).
    split; [apply inside_walk; exact Hnode|].
    destruct (String.eqb_spec m EmptyString); [contradiction|left; reflexivity].
  - intros m Hm. apply Hin in Hm. unfold Spec.imported_modules in Hm.
    apply in_flat_map in Hm. destruct Hm as (node & Hnode & Hm).
    exists node. split; [exact Hnode|].
    destruct node as [names|[module|]| | | | |]; try contradiction.
    + left. eauto.
    + destruct (String.eqb_spec module EmptyString); [contradiction|].
      destruct Hm as [->|[]]. right. auto.
Qed.

(* ================================================================== *)
(** ** The verdict does not depend on the order of a set *)

Lemma concat_blocks_perm (H1 H2 : HashOrder) (fs : FileSystem) (root : Path.t)
      (files : list Path.t) :
  Permutation (concat (map (Spec.file_block (H := H1) fs root) files))
              (concat (map (Spec.file_block (H := H2) fs root) files)).
Proof.
  induction files as [|f files IH]; [constructor|].
  cbn [map concat]. apply Permutation_app; [|exact IH].
  etransitivity; [apply file_block_perm|]. symmetry. apply file_block_perm.
Qed.

(** Two runs over the same tree that visit the import sets in different
    orders find the same violations up to their order: the same number,
    the same verdict of the dependency rule checker and the same outcome
    of validate_imports.py. *)
Theorem verdict_ignores_set_order (H1 H2 : HashOrder) (fs : FileSystem)
        (argv : list string) (root : Path.t) :
  Permutation
    (ImportValidator.violations (fst (ImportValidator.validate (H := H1) fs root)))
    (ImportValidator.violations (fst (ImportValidator.validate (H := H2) fs root)))
  /\ snd (ImportValidator.validate (H := H1) fs root)
     = snd (ImportValidator.validate (H := H2) fs root)
  /\ ValidateImports.main (H := H1) fs argv = ValidateImports.main (H := H2) fs argv.
Proof.
  assert (Hperm : forall r,
             Permutation
               (ImportValidator.violations
                  (fst (ImportValidator.validate (H := H1) fs r)))
               (ImportValidator.violations
                  (fst (ImportValidator.validate (H := H2) fs r)))).
  { intro r. rewrite !validate_violations. apply concat_blocks_perm. }
  assert (Hflag : forall r,
             snd (ImportValidator.validate (H := H1) fs r)
             = snd (ImportValidator.validate (H := H2) fs r)).
  { intro r. specialize (Hperm r).
    pose proof (validate_flag (H := H1) fs r) as F1.
    pose proof (validate_flag (H := H2) fs r) as F2.
    destruct (snd (ImportValidator.validate (H := H1) fs r)) eqn:E1;
      destruct (snd (ImportValidator.validate (H := H2) fs r)) eqn:E2;
      try reflexivity.
    - destruct F1 as (F1 & _). rewrite (F1 eq_refl) in Hperm.
      apply Permutation_nil in Hperm. apply F2 in Hperm. congruence.
    - destruct F2 as (F2 & _). rewrite (F2 eq_refl) in Hperm.
      apply Permutation_sym, Permutation_nil in Hperm. apply F1 in Hperm. congruence. }
  split; [apply Hperm|]. split; [apply Hflag|].
  unfold ValidateImports.main.
  destruct (ValidateImports.find_root fs argv) as [r|]; [|reflexivity].
  rewrite (Hflag r). reflexivity.
Qed.

(* ================================================================== *)
(** ** The synonym "entities" in the checkers that do not name layers *)

Lemma map_flat_map {A B C : Type} (f : B -> C) (g : A -> list B) (l : list A) :
  map f (flat_map g l) = flat_map (fun x => map f (g x)) l.
Proof.
  induction l as [|x l IH]; [reflexivity|].
  cbn [flat_map]. rewrite map_app, IH. reflexivity.
Qed.

(** the naming issues of a file are the texts of its module, each behind
    the path text of the file *)
Lemma naming_issues_texts (fs : FileSystem) (file_path : Path.t) (issues : list string) :
  NamingConventionValidator.validate_file fs file_path issues
  = issues
    ++ if Str.contains "test" (Path.str file_path) then []
       else match fs_parse fs file_path with
            | Ok tree => map (String.append (Path.str file_path)) (naming_texts tree)
            | Raise _ => []
            end.
Proof.
  unfold NamingConventionValidator.validate_file.
  destruct (Str.contains "test" (Path.str file_path)); [symmetry; apply app_nil_r|].
  destruct (fs_parse fs file_path) as [tree|e]; [|symmetry; apply app_nil_r].
  rewrite check_constants_flat, check_functions_flat, check_classes_flat.
  unfold naming_texts. rewrite !map_app, !map_flat_map, <- !app_assoc.
  f_equal. f_equal; [|f_equal].
  - apply flat_map_ext. intros [| |name bases body decorator_list| | | |];
      try reflexivity.
    destruct (negb (NamingConventionValidator._is_pascal_case name)); reflexivity.
  - apply flat_map_ext. intros [| | |name body decorator_list| | |]; try reflexivity.
    destruct (Str.startswith name "__" && Str.endswith name "__"); [reflexivity|].
    destruct (negb (NamingConventionValidator._is_snake_case name)); reflexivity.
  - apply flat_map_ext. intros [| | | |targets| |]; try reflexivity.
    rewrite map_flat_map. apply flat_map_ext. intros [id| | |]; try reflexivity.
    destruct (Str.isupper id && Str.contains "_" id
              && negb (NamingConventionValidator._is_upper_snake_case id));
      reflexivity.
Qed.

(** the use-case issues of a file are the texts of its class names, each
    behind the path text of the file *)
Lemma use_case_issues_texts `{HashOrder} (classes : PySet.t) (file_path : Path.t)
      (issues : list string) :
  UseCaseStructureValidator._check_use_case_pattern classes file_path issues
  = issues ++ map (String.append (Path.str file_path)) (use_case_texts classes).
Proof.
  rewrite use_case_pattern_flat. unfold use_case_texts.
  rewrite map_flat_map. f_equal. apply flat_map_ext. intro use_case. cbv zeta.
  rewrite map_app.
  destruct (negb (PySet.mem _ classes)); destruct (negb (PySet.mem _ classes));
    reflexivity.
Qed.

Lemma name_of_last_segment (front : list string) (segment : string) :
  String.eqb segment "/" || String.eqb segment "//" = false ->
  Path.name (front ++ [segment]) = segment.
Proof.
  intro Hseg. destruct front as [|x front].
  - cbn. rewrite Hseg. reflexivity.
  - unfold Path.name. cbn [app].
    destruct (front ++ [segment]) as [|y l] eqn:E.
    + destruct front; discriminate.
    + rewrite <- E. change (x :: front ++ [segment]) with ((x :: front) ++ [segment]).
      apply last_last.
Qed.

Lemma last_app_cons (l : list string) (y : string) (post : list string) (d : string) :
  last (l ++ y :: post) d = last (y :: post) d.
Proof.
  induction l as [|a l IH]; [reflexivity|].
  assert (Hne : l ++ y :: post <> []) by (destruct l; discriminate).
  cbn [app]. revert IH Hne.
  destruct (l ++ y :: post) as [|z r]; intros IH Hne; [congruence|exact IH].
Qed.

Lemma name_of_inner_segment (front : list string) (segment y : string)
      (post : list string) :
  Path.name (front ++ segment :: y :: post) = last (y :: post) EmptyString.
Proof.
  unfold Path.name. destruct front as [|x [|x2 front]]; cbn [app].
  - exact (last_app_cons [segment] y post EmptyString).
  - exact (last_app_cons [x; segment] y post EmptyString).
  - rewrite <- (last_app_cons (x :: x2 :: front ++ [segment]) y post EmptyString).
    cbn [app]. rewrite <- app_assoc. reflexivity.
Qed.

Lemma use_case_marker_synonym (front post : list string) :
  Str.contains "use_case" (Str.lower (Path.stem (front ++ "entities" :: post)))
  = Str.contains "use_case" (Str.lower (Path.stem (front ++ "domain" :: post))).
Proof.
  unfold Path.stem. destruct post as [|y post].
  - rewrite !name_of_last_segment by reflexivity. reflexivity.
  - rewrite !name_of_inner_segment. reflexivity.
Qed.

(** C3, amended. For two files with the same content whose paths differ
    only in one segment, "entities" in one and "domain" in the other: the
    dependency rule checker classifies both into the same layer and adds
    the same violations up to the path text, and the naming checker and
    the use-case triad checker add the same issues up to the path text
    each issue starts with. *)
Theorem C3_synonym_in_three_checkers (H : HashOrder) (fs : FileSystem)
        (root pre post : list string) (st : ImportValidator.state)
        (issues : list string) :
  fs_parse fs (root ++ pre ++ "entities" :: post)
  = fs_parse fs (root ++ pre ++ "domain" :: post) ->
  ImportValidator._get_layer root (root ++ pre ++ "entities" :: post)
  = ImportValidator._get_layer root (root ++ pre ++ "domain" :: post)
  /\ map Spec.layers_of
         (ImportValidator.violations
            (ImportValidator._validate_file fs root
               (root ++ pre ++ "entities" :: post) st))
     = map Spec.layers_of
           (ImportValidator.violations
              (ImportValidator._validate_file fs root
                 (root ++ pre ++ "domain" :: post) st))
  /\ (exists texts,
         NamingConventionValidator.validate_file fs
           (root ++ pre ++ "entities" :: post) issues
         = issues
           ++ map (String.append (Path.str (root ++ pre ++ "entities" :: post))) texts
         /\ NamingConventionValidator.validate_file fs
              (root ++ pre ++ "domain" :: post) issues
            = issues
              ++ map (String.append (Path.str (root ++ pre ++ "domain" :: post))) texts)
  /\ (exists texts,
         UseCaseStructureValidator.validate_file fs
           (root ++ pre ++ "entities" :: post) issues
         = issues
           ++ map (String.append (Path.str (root ++ pre ++ "entities" :: post))) texts
         /\ UseCaseStructureValidator.validate_file fs
              (root ++ pre ++ "domain" :: post) issues
            = issues
              ++ map (String.append (Path.str (root ++ pre ++ "domain" :: post))) texts).
Proof.
  intro Hsame.
  pose proof (contains_synonym "test" root pre post eq_refl eq_refl) as Htest.
  split; [|split; [|split]].
  - unfold ImportValidator._get_layer. rewrite !relative_to_app. cbn [bind].
    rewrite first_layer_synonym. reflexivity.
  - rewrite !validate_file_violations, !map_app, Hsame, Htest.
    rewrite (contains_synonym "__pycache__" root pre post eq_refl eq_refl).
    destruct (Str.contains "__pycache__" (Path.str (root ++ pre ++ "domain" :: post))
              || Str.contains "test" (Path.str (root ++ pre ++ "domain" :: post)));
      [reflexivity|].
    destruct (fs_parse fs (root ++ pre ++ "domain" :: post)) as [tree|e];
      [|reflexivity].
    rewrite flat_map_emitted_synonym. reflexivity.
  - rewrite !naming_issues_texts, Hsame, Htest.
    destruct (Str.contains "test" (Path.str (root ++ pre ++ "domain" :: post)));
      [exists []; split; reflexivity|].
    destruct (fs_parse fs (root ++ pre ++ "domain" :: post)) as [tree|e];
      [|exists []; split; reflexivity].
    exists (naming_texts tree). split; reflexivity.
  - unfold UseCaseStructureValidator.validate_file.
    rewrite Hsame, Htest.
    rewrite (contains_synonym "application" root pre post eq_refl eq_refl).
    rewrite !app_assoc, (use_case_marker_synonym ((root ++ pre)) post).
    destruct (negb (Str.contains "application"
                      (Path.str ((root ++ pre) ++ "domain" :: post)))
              || negb (Str.contains "use_case"
                         (Str.lower (Path.stem ((root ++ pre) ++ "domain" :: post)))));
      [exists []; split; rewrite app_nil_r; reflexivity|].
    destruct (Str.contains "test" (Path.str ((root ++ pre) ++ "domain" :: post)));
      [exists []; split; rewrite app_nil_r; reflexivity|].
    destruct (fs_parse fs ((root ++ pre) ++ "domain" :: post)) as [tree|e];
      [|exists []; split; rewrite app_nil_r; reflexivity].
    exists (use_case_texts (UseCaseStructureValidator._get_class_names tree)).
    split; apply use_case_issues_texts.
Qed.

Lemma C3_synonym_in_three_checkers_witness :
  map Spec.layers_of
      (ImportValidator.violations
         (ImportValidator._validate_file (H := insertion_order)
            (one_module [Ast.Import ["frameworks.web"]; Ast.ClassDef "task" [] [] []])
            ["src"]
            (["src"] ++ ["core"] ++ "entities" :: ["task.py"]) ImportValidator.init))
  = map Spec.layers_of
        (ImportValidator.violations
           (ImportValidator._validate_file (H := insertion_order)
              (one_module [Ast.Import ["frameworks.web"]; Ast.ClassDef "task" [] [] []])
              ["src"]
              (["src"] ++ ["core"] ++ "domain" :: ["task.py"]) ImportValidator.init))
  /\ exists texts,
      NamingConventionValidator.validate_file
        (one_module [Ast.Import ["frameworks.web"]; Ast.ClassDef "task" [] [] []])
        (["src"] ++ ["core"] ++ "entities" :: ["task.py"]) []
      = [] ++ map (String.append
                     (Path.str (["src"] ++ ["core"] ++ "entities" :: ["task.py"]))) texts
      /\ NamingConventionValidator.validate_file
           (one_module [Ast.Import ["frameworks.web"]; Ast.ClassDef "task" [] [] []])
           (["src"] ++ ["core"] ++ "domain" :: ["task.py"]) []
         = [] ++ map (String.append
                        (Path.str (["src"] ++ ["core"] ++ "domain" :: ["task.py"]))) texts.
Proof.
  destruct (C3_synonym_in_three_checkers insertion_order
              (one_module [Ast.Import ["frameworks.web"]; Ast.ClassDef "task" [] [] []])
              ["src"] ["core"] ["task.py"] ImportValidator.init [] eq_refl)
    as (_ & Hdep & Hnaming & _).
  split; [exact Hdep|exact Hnaming].
Defined.
